(** * osc_router: the rule table and the dispatch of inbound OSC messages

    A shallow embedding of [osc_router.py]: the Python values that travel
    through the program (decoded JSON configuration, OSC arguments), the
    dictionary [VALUE_MAP] with Python's key semantics, [load_config],
    [send_osc] and [osc_handler], followed by the properties of the
    rule-matching and forwarding engine. *)

From Stdlib Require Import ZArith NArith List String Ascii Bool Lia.
Import ListNotations.

Set Warnings "-register-all".

Local Open Scope string_scope.
Local Open Scope list_scope.
Local Open Scope Z_scope.

(* ================================================================== *)
(** ** Python values *)
(* ================================================================== *)

Module PyVal.

(** A Python [float].  A finite float is [(-1)^neg * m * 2^e]; the type is
    wider than binary64, which only makes the statements quantified over
    it stronger.  [m = 0] gives the two signed zeros.  A NaN compares
    unequal to everything, itself included, so that the only way a NaN
    key is found again in a dictionary is through the identity shortcut
    of the lookup: [obj] is the identity of the NaN object. *)
Inductive pyfloat : Type :=
| FFinite (neg : bool) (m : N) (e : Z)
| FInf (neg : bool)
| FNaN (obj : nat).

(** The values the program handles: what [json.load] produces ([None],
    [bool], [int], [float], [str], [list], [dict] with string keys) and what
    the OSC library hands to a handler (in addition [bytes] for blobs and
    [tuple] for MIDI packets). *)
Inductive pyval : Type :=
| PNone
| PBool (b : bool)
| PInt (z : Z)
| PFloat (f : pyfloat)
| PStr (s : string)
| PBytes (b : list Byte.byte)
| PList (l : list pyval)
| PTuple (l : list pyval)
| PDict (d : list (string * pyval)).

(** Induction principle that reaches inside the containers. *)
Section pyval_induction.
Variable P : pyval -> Prop.
Hypothesis HNone : P PNone.
Hypothesis HBool : forall b, P (PBool b).
Hypothesis HInt : forall z, P (PInt z).
Hypothesis HFloat : forall f, P (PFloat f).
Hypothesis HStr : forall s, P (PStr s).
Hypothesis HBytes : forall b, P (PBytes b).
Hypothesis HList : forall l, Forall P l -> P (PList l).
Hypothesis HTuple : forall l, Forall P l -> P (PTuple l).
Hypothesis HDict : forall d, Forall (fun kv => P (snd kv)) d -> P (PDict d).

Fixpoint pyval_deep_ind (v : pyval) : P v :=
  let fix items (l : list pyval) : Forall P l :=
    match l with
    | [] => Forall_nil P
    | x :: r => Forall_cons x (pyval_deep_ind x) (items r)
    end in
  match v with
  | PNone => HNone
  | PBool b => HBool b
  | PInt z => HInt z
  | PFloat f => HFloat f
  | PStr s => HStr s
  | PBytes b => HBytes b
  | PList l => HList l (items l)
  | PTuple l => HTuple l (items l)
  | PDict d =>
      HDict d
        ((fix members (d : list (string * pyval))
            : Forall (fun kv => P (snd kv)) d :=
            match d with
            | [] => Forall_nil _
            | kv :: r =>
                Forall_cons kv (pyval_deep_ind (snd kv)) (members r)
            end) d)
  end.
End pyval_induction.

(** *** Truth value: [bool(v)], [not v], [if v] *)

Definition truthy (v : pyval) : bool :=
  match v with
  | PNone => false
  | PBool b => b
  | PInt z => negb (z =? 0)
  | PFloat (FFinite _ m _) => negb (m =? 0)%N
  | PFloat _ => true
  | PStr s => negb (s =? "")%string
  | PBytes b => match b with [] => false | _ => true end
  | PList l => match l with [] => false | _ => true end
  | PTuple l => match l with [] => false | _ => true end
  | PDict d => match d with [] => false | _ => true end
  end.

(** *** Hashing: [hash(v)] raises [TypeError] on lists and dicts, and on a
    tuple that holds one. *)

Fixpoint hashable (v : pyval) : bool :=
  match v with
  | PList _ | PDict _ => false
  | PTuple l => forallb hashable l
  | _ => true
  end.

(** *** Numbers

    [bool], [int] and [float] compare by exact mathematical value
    ([True == 1 == 1.0], [0 == 0.0 == -0.0 == False]) and equal numbers hash
    alike.  A finite number is kept in lowest terms [m * 2^e] with [m] odd
    (or [0 * 2^0]), so that two numbers have the same value exactly when
    their normal forms coincide. *)

Inductive number : Type :=
| NumFin (m : Z) (e : Z)
| NumInf (neg : bool).

Fixpoint strip (p : positive) (e : Z) : positive * Z :=
  match p with
  | xO q => strip q (e + 1)
  | _ => (p, e)
  end.

Definition dyadic (m e : Z) : number :=
  match m with
  | Z0 => NumFin 0 0
  | Zpos p => let (q, e') := strip p e in NumFin (Zpos q) e'
  | Zneg p => let (q, e') := strip p e in NumFin (Zneg q) e'
  end.

Definition py_number (v : pyval) : option number :=
  match v with
  | PBool b => Some (dyadic (if b then 1 else 0) 0)
  | PInt z => Some (dyadic z 0)
  | PFloat (FFinite neg m e) =>
      Some (dyadic (if neg then - Z.of_N m else Z.of_N m) e)
  | PFloat (FInf neg) => Some (NumInf neg)
  | _ => None
  end.

Definition number_eqb (x y : number) : bool :=
  match x, y with
  | NumFin m e, NumFin m' e' => (m =? m') && (e =? e')
  | NumInf s, NumInf s' => Bool.eqb s s'
  | _, _ => false
  end.

Fixpoint bytes_eqb (a b : list Byte.byte) : bool :=
  match a, b with
  | [], [] => true
  | x :: a', y :: b' => Byte.eqb x y && bytes_eqb a' b'
  | _, _ => false
  end.

(** *** Key comparison

    The test a dictionary lookup (and the comparison of tuple elements)
    applies to a stored key and a probe: [a is b or a == b].  It is only
    ever applied to hashable values, hashing comes first and raises on the
    others; on lists and dicts it is set to [false]. *)

Fixpoint all2 {A : Type} (f : A -> A -> bool) (xs ys : list A) : bool :=
  match xs, ys with
  | [], [] => true
  | x :: xs', y :: ys' => f x y && all2 f xs' ys'
  | _, _ => false
  end.

Fixpoint same_key (a b : pyval) {struct a} : bool :=
  match a with
  | PNone => match b with PNone => true | _ => false end
  | PStr s => match b with PStr t => (s =? t)%string | _ => false end
  | PBytes s => match b with PBytes t => bytes_eqb s t | _ => false end
  | PFloat (FNaN i) =>
      match b with PFloat (FNaN j) => Nat.eqb i j | _ => false end
  | PBool _ | PInt _ | PFloat _ =>
      match py_number a, py_number b with
      | Some x, Some y => number_eqb x y
      | _, _ => false
      end
  | PTuple xs =>
      match b with
      | PTuple ys => all2 same_key xs ys
      | _ => false
      end
  | PList _ | PDict _ => false
  end.

(** The float a Python [float(z)] is, for a small integer [z]. *)
Definition float_of_Z (z : Z) : pyfloat :=
  FFinite (z <? 0) (Z.abs_N z) 0.

End PyVal.

Import PyVal.

(* ================================================================== *)
(** ** Exceptions and fallible pure operations *)
(* ================================================================== *)

Inductive exn : Type :=
| TypeError
| AttributeError
| KeyError
| OSError
| ValueError.

Inductive outcome (A : Type) : Type :=
| Ret (a : A)
| Raise (e : exn).
Arguments Ret {A} a.
Arguments Raise {A} e.

Definition obind {A B : Type} (c : outcome A) (k : A -> outcome B)
  : outcome B :=
  match c with
  | Ret a => k a
  | Raise e => Raise e
  end.

Notation "'let!' x ':=' c 'in' k" := (obind c (fun x => k))
  (at level 10, x name, c at level 100, k at level 200).

(** A decoded JSON object is kept as the list of its members; the first
    binding of a name is the one a lookup sees. *)
Fixpoint assoc (d : list (string * pyval)) (k : string) : option pyval :=
  match d with
  | [] => None
  | (k', v) :: r => if (k' =? k)%string then Some v else assoc r k
  end.

(** [o.get(name, default)] on an object with the members [d]. *)
Definition member (d : list (string * pyval)) (name : string)
    (default : pyval) : pyval :=
  match assoc d name with
  | Some v => v
  | None => default
  end.

(** [o.get(k, default)] on any value: only a [dict] has the method. *)
Definition py_get (o : pyval) (k : string) (default : pyval)
  : outcome pyval :=
  match o with
  | PDict d => Ret (member d k default)
  | _ => Raise AttributeError
  end.

(** [for m in v]: the items a [for] loop visits, [TypeError] when [v] is
    not iterable.  A [str] yields its characters as one-character strings
    (here one per byte; the loop of [load_config] raises on the first of
    them whatever it is), a [dict] its keys, [bytes] its bytes as
    integers. *)
Definition py_iter (v : pyval) : outcome (list pyval) :=
  match v with
  | PList l | PTuple l => Ret l
  | PStr s => Ret (map (fun c => PStr (String c "")) (list_ascii_of_string s))
  | PBytes b => Ret (map (fun x => PInt (Z.of_N (Byte.to_N x))) b)
  | PDict d => Ret (map (fun kv => PStr (fst kv)) d)
  | PNone | PBool _ | PInt _ | PFloat _ => Raise TypeError
  end.

(* ================================================================== *)
(** ** Dictionaries keyed by Python values *)
(* ================================================================== *)

Module Dict.

(** A [dict] in insertion order.  A lookup hashes the probe first (and
    raises on an unhashable one), then finds the stored key that is the
    probe or equals it.  An assignment to a key that is already present
    keeps the stored key and replaces its value. *)
Definition dict (V : Type) : Type := list (pyval * V).

Section ops.
Context {V : Type}.

Fixpoint find (d : dict V) (k : pyval) : option (pyval * V) :=
  match d with
  | [] => None
  | (k0, v) :: r => if same_key k0 k then Some (k0, v) else find r k
  end.

Fixpoint update (d : dict V) (k : pyval) (v : V) : dict V :=
  match d with
  | [] => [(k, v)]
  | (k0, v0) :: r =>
      if same_key k0 k then (k0, v) :: r else (k0, v0) :: update r k v
  end.

(** [k in d] *)
Definition contains (d : dict V) (k : pyval) : outcome bool :=
  if hashable k
  then Ret (match find d k with Some _ => true | None => false end)
  else Raise TypeError.

(** [d[k]] *)
Definition getitem (d : dict V) (k : pyval) : outcome V :=
  if hashable k
  then match find d k with
       | Some (_, v) => Ret v
       | None => Raise KeyError
       end
  else Raise TypeError.

(** [d[k] = v] *)
Definition setitem (d : dict V) (k : pyval) (v : V) : outcome (dict V) :=
  if hashable k then Ret (update d k v) else Raise TypeError.

(** What every [dict] satisfies: its keys are hashable and no two of
    them are the same key. *)
Fixpoint wf (d : dict V) : Prop :=
  match d with
  | [] => True
  | (k0, _) :: r =>
      hashable k0 = true
      /\ (forall k v, In (k, v) r -> same_key k0 k = false)
      /\ wf r
  end.
End ops.

End Dict.

(* ================================================================== *)
(** ** The program state, its log and its monad *)
(* ================================================================== *)

(** [udp_client.SimpleUDPClient(target_ip, target_port)] *)
Record client : Type := SimpleUDPClient
  { target_ip : string; target_port : Z }.

(** [VALUE_MAP]: [(in_address, in_value) -> (out_address, out_args)]. *)
Definition rule_out : Type := (pyval * pyval)%type.
Definition rule_table : Type := Dict.dict rule_out.

(** The lines [log_gui] is called with, one constructor per f-string of
    the source, holding the values the string is built from. *)
Inductive log_line : Type :=
| ConfigCreated
| ErrorWritingDefault
| ConfigLoaded
| ErrorReadingConfig
| LoadedMappings (n : nat) (forward_unmapped : bool)
| WarnNoClient
| SendLine (address : pyval) (args : list pyval)
| RecvLine (address : pyval) (args : list pyval)
| Ignored (key : pyval)
| ServerStarting (listen_ip : string) (listen_port : Z)
| ForwardingTo (c : client).

(** What the program does to the outside: a line on the log, and a
    message that has gone out, which is a call of
    [osc_client.send_message] that has returned. *)
Inductive event : Type :=
| LogGui (l : log_line)
| SendMessage (c : client) (address : pyval) (args : list pyval).

(** The module globals the router logic reads and writes, and the
    events so far. *)
Record world : Type := World
  { VALUE_MAP : rule_table;
    FORWARD_UNMAPPED : bool;
    osc_client : option client;
    trace : list event }.

(** Lines 32, 33 and 41: the globals when the module is loaded. *)
Definition initial_world : world :=
  {| VALUE_MAP := [];
     FORWARD_UNMAPPED := true;
     osc_client := None;
     trace := [] |}.

(** A statement runs in a world and either completes or raises; what it
    did to the world before raising stays done. *)
Definition M (A : Type) : Type := world -> outcome A * world.

Definition ret {A : Type} (a : A) : M A := fun w => (Ret a, w).

Definition bind {A B : Type} (c : M A) (k : A -> M B) : M B :=
  fun w =>
    match c w with
    | (Ret a, w') => k a w'
    | (Raise e, w') => (Raise e, w')
    end.

Definition lift {A : Type} (c : outcome A) : M A := fun w => (c, w).

Definition read : M world := fun w => (Ret w, w).

Declare Scope py_scope.
Delimit Scope py_scope with py.
Notation "x <- c ;; k" := (bind c (fun x => k))
  (at level 61, c at next level, right associativity) : py_scope.
Notation "c ;; k" := (bind c (fun _ => k))
  (at level 61, right associativity) : py_scope.
Local Open Scope py_scope.

Definition emit (e : event) : M unit :=
  fun w =>
    (Ret tt,
     {| VALUE_MAP := VALUE_MAP w;
        FORWARD_UNMAPPED := FORWARD_UNMAPPED w;
        osc_client := osc_client w;
        trace := trace w ++ [e] |}).

Definition log_gui (l : log_line) : M unit := emit (LogGui l).

Definition set_FORWARD_UNMAPPED (b : bool) : M unit :=
  fun w =>
    (Ret tt,
     {| VALUE_MAP := VALUE_MAP w;
        FORWARD_UNMAPPED := b;
        osc_client := osc_client w;
        trace := trace w |}).

Definition set_VALUE_MAP (d : rule_table) : M unit :=
  fun w =>
    (Ret tt,
     {| VALUE_MAP := d;
        FORWARD_UNMAPPED := FORWARD_UNMAPPED w;
        osc_client := osc_client w;
        trace := trace w |}).

Definition set_osc_client (c : client) : M unit :=
  fun w =>
    (Ret tt,
     {| VALUE_MAP := VALUE_MAP w;
        FORWARD_UNMAPPED := FORWARD_UNMAPPED w;
        osc_client := Some c;
        trace := trace w |}).

(* ================================================================== *)
(** ** [load_config] *)
(* ================================================================== *)

(** What the file system answers to [load_config]: no [config.json] (and
    the default can or cannot be written), a file that cannot be read or
    decoded, or the value [json.load] returns. *)
Inductive config_source : Type :=
| NoFile (writable : bool)
| Unreadable
| Decoded (data : pyval).

(** Lines 91-94. *)
Definition default : pyval :=
  PDict [("forward_unmapped", PBool true); ("mappings", PList [])].

(** Lines 117-127, the body of the [for] loop run over the items that are
    left, with [mappings_dict] as it stands. *)
Fixpoint for_mappings (ms : list pyval) (mappings_dict : rule_table)
  : outcome rule_table :=
  match ms with
  | [] => Ret mappings_dict
  | m :: rest =>
      let! in_addr := py_get m "in_address" PNone in
      let! in_val := py_get m "in_value" PNone in
      let! out_addr := py_get m "out_address" PNone in
      let! out_args := py_get m "out_args" (PList []) in
      if negb (truthy in_addr) || negb (truthy out_addr)
      then for_mappings rest mappings_dict
      else
        let! d := Dict.setitem mappings_dict (PTuple [in_addr; in_val])
                    (out_addr, out_args) in
        for_mappings rest d
  end.

Definition load_config (src : config_source) : M unit :=
  found <- match src with
           | NoFile true => log_gui ConfigCreated ;; ret (Some default)
           | NoFile false => log_gui ErrorWritingDefault ;; ret None
           | Unreadable => log_gui ErrorReadingConfig ;; ret None
           | Decoded data => log_gui ConfigLoaded ;; ret (Some data)
           end ;;
  match found with
  | None => ret tt
  | Some data =>
      flag <- lift (py_get data "forward_unmapped" (PBool false)) ;;
      set_FORWARD_UNMAPPED (truthy flag) ;;
      mappings <- lift (py_get data "mappings" (PList [])) ;;
      items <- lift (py_iter mappings) ;;
      mappings_dict <- lift (for_mappings items []) ;;
      set_VALUE_MAP mappings_dict ;;
      w <- read ;;
      log_gui (LoadedMappings (List.length (VALUE_MAP w)) (FORWARD_UNMAPPED w))
  end.

(* ================================================================== *)
(** ** OSC logic *)
(* ================================================================== *)

(** Lines 144-149: the argument list built from [out_args]. *)
Definition send_args (out_args : pyval) : list pyval :=
  match out_args with
  | PNone => []
  | PList l | PTuple l => l
  | _ => [out_args]
  end.

(** Lines 137-152.  [sent] is what the call [osc_client.send_message] of
    line 152 does, should it be reached: it returns, or it raises (the
    client library raises [ValueError] on an argument it cannot encode,
    the socket [OSError]); nothing in [send_osc] catches what it raises. *)
Definition send_osc (sent : outcome unit) (address out_args : pyval)
  : M unit :=
  w <- read ;;
  match osc_client w with
  | None => log_gui WarnNoClient
  | Some c =>
      let args := send_args out_args in
      log_gui (SendLine address args) ;;
      lift sent ;;
      emit (SendMessage c address args)
  end.

(** Line 162: [args[0] if args else None]. *)
Definition first_arg (args : list pyval) : pyval :=
  match args with
  | a :: _ => a
  | [] => PNone
  end.

(** Line 163: the tuple [(address, first_arg)]. *)
Definition key_of (address : pyval) (args : list pyval) : pyval :=
  PTuple [address; first_arg args].

(** Lines 155-171, with [sent] for the one call of [send_osc] it may
    make; nothing in the handler catches what that call raises. *)
Definition osc_handler (sent : outcome unit) (address : pyval)
    (args : list pyval) : M unit :=
  log_gui (RecvLine address args) ;;
  let key := key_of address args in
  w <- read ;;
  hit <- lift (Dict.contains (VALUE_MAP w) key) ;;
  if (hit : bool) then
    out <- lift (Dict.getitem (VALUE_MAP w) key) ;;
    let (out_address, out_args) := (out : rule_out) in
    send_osc sent out_address out_args
  else if FORWARD_UNMAPPED w then
    send_osc sent address (PList args)
  else
    log_gui (Ignored key).

(** Lines 178-189 of [start_osc_server]: the client is created first, then
    the listening server, whose creation raises when the port cannot be
    bound. *)
Definition start_osc_server (listen_ip : string) (listen_port : Z)
    (target_ip : string) (target_port : Z) (bound : bool) : M unit :=
  let c := SimpleUDPClient target_ip target_port in
  set_osc_client c ;;
  (if bound then ret tt else lift (Raise OSError)) ;;
  log_gui (ServerStarting listen_ip listen_port) ;;
  log_gui (ForwardingTo c).

(* ================================================================== *)
(** ** Notions the statements are written with *)
(* ================================================================== *)

(** The world [w] after the events [es]. *)
Definition logged (w : world) (es : list event) : world :=
  {| VALUE_MAP := VALUE_MAP w;
     FORWARD_UNMAPPED := FORWARD_UNMAPPED w;
     osc_client := osc_client w;
     trace := trace w ++ es |}.

(** The events of a call of [send_osc] that finds the client [c]: the
    "SEND" line, and the message when [send_message] returns. *)
Definition send_events (sent : outcome unit) (c : client) (address : pyval)
    (args : list pyval) : list event :=
  LogGui (SendLine address args)
  :: match sent with
     | Ret _ => [SendMessage c address args]
     | Raise _ => []
     end.

(** The lookup of [osc_handler] for the message [(address, args)] lands on
    the stored rule [rule]: a mapped hit for that rule. *)
Definition mapped_hit (w : world) (address : pyval) (args : list pyval)
    (rule : pyval * rule_out) : Prop :=
  Dict.contains (VALUE_MAP w) (key_of address args) = Ret true
  /\ Dict.find (VALUE_MAP w) (key_of address args) = Some rule.

(** [m.get(name)] on an entry that is an object with the members [e]. *)
Definition entry_field (e : list (string * pyval)) (name : string) : pyval :=
  member e name PNone.

(** The member is missing or empty: absent, [null], the empty string, or
    anything else line 124 takes for false. *)
Definition missing_or_empty (e : list (string * pyval)) (name : string)
  : Prop :=
  truthy (entry_field e name) = false.

(** The key and the output line 127 stores for an entry. *)
Definition entry_key (e : list (string * pyval)) : pyval :=
  PTuple [entry_field e "in_address"; entry_field e "in_value"].

Definition entry_out (e : list (string * pyval)) : rule_out :=
  (entry_field e "out_address", member e "out_args" (PList [])).

(** Line 124 lets the entry through. *)
Definition kept (e : list (string * pyval)) : bool :=
  truthy (entry_field e "in_address") && truthy (entry_field e "out_address").

(** The entries the loop body gets through: objects that line 124 skips or
    whose key can be hashed. *)
Definition entry_ok (m : pyval) : bool :=
  match m with
  | PDict e => negb (kept e) || hashable (entry_key e)
  | _ => false
  end.

(** The decoded configurations the construction gets through: an object
    whose ["mappings"], when present, can be iterated and yields such
    entries. *)
Definition config_ok (data : pyval) : bool :=
  match data with
  | PDict d =>
      match py_iter (member d "mappings" (PList [])) with
      | Ret ms => forallb entry_ok ms
      | Raise _ => false
      end
  | _ => false
  end.

(** *** The example of the specification and a running router *)

Definition rule (in_address in_value out_address out_args : pyval) : pyval :=
  PDict [("in_address", in_address); ("in_value", in_value);
         ("out_address", out_address); ("out_args", out_args)].

Definition config (forward_unmapped : bool) (mappings : list pyval) : pyval :=
  PDict [("forward_unmapped", PBool forward_unmapped);
         ("mappings", PList mappings)].

Definition btn_rule : pyval :=
  rule (PStr "/btn/1") (PInt 1) (PStr "/light/1") (PList [PInt 255]).

Definition absent_rule : pyval :=
  rule (PStr "/stop") PNone (PStr "/transport") (PList [PInt 0]).

Definition localhost : client := SimpleUDPClient "127.0.0.1" 7000.

(** [main]'s [load_config()] on the decoded [data], then the Start button
    with the default ports; the log is cleared to keep the examples
    short. *)
Definition running (data : pyval) : world :=
  let w := snd ((load_config (Decoded data) ;;
                 start_osc_server "192.168.0.2" 7000 "127.0.0.1" 7000 true)
                  initial_world) in
  {| VALUE_MAP := VALUE_MAP w;
     FORWARD_UNMAPPED := FORWARD_UNMAPPED w;
     osc_client := osc_client w;
     trace := [] |}.

(** *** Notions for the further properties *)

(** The events that [w'] has beyond those of [w]. *)
Definition new_events (w w' : world) : list event :=
  skipn (List.length (trace w)) (trace w').

(** The messages handed to the client among the events [es]. *)
Fixpoint sends (es : list event) : list (client * pyval * list pyval) :=
  match es with
  | [] => []
  | SendMessage c address args :: r => (c, address, args) :: sends r
  | LogGui _ :: r => sends r
  end.

(** The output of the last of the entries [ms] that line 124 lets through
    and that line 127 stores under the key of the probe [k]; [found] when
    there is none. *)
Fixpoint last_match (ms : list pyval) (k : pyval) (found : option rule_out)
  : option rule_out :=
  match ms with
  | [] => found
  | PDict e :: rest =>
      if kept e && same_key (entry_key e) k
      then last_match rest k (Some (entry_out e))
      else last_match rest k found
  | _ :: rest => last_match rest k found
  end.

(** The number of entries among [ms] that line 124 lets through. *)
Fixpoint count_kept (ms : list pyval) : nat :=
  match ms with
  | [] => 0%nat
  | PDict e :: rest => ((if kept e then 1 else 0) + count_kept rest)%nat
  | _ :: rest => count_kept rest
  end.

(** A stored rule as line 127 makes them: the key is a pair whose address
    is not empty, and the output address is not empty. *)
Definition rule_shape (r : pyval * rule_out) : Prop :=
  (exists a v, fst r = PTuple [a; v] /\ truthy a = true)
  /\ truthy (fst (snd r)) = true.

(** [main]'s [load_config()] with the answer [src] of the file system, then
    a start of the server that succeeds. *)
Definition started (src : config_source) (listen_ip : string)
    (listen_port : Z) (target_ip : string) (target_port : Z) : world :=
  snd ((load_config src ;;
        start_osc_server listen_ip listen_port target_ip target_port true)
         initial_world).

(* ================================================================== *)
(** ** The server, the window and where the log goes *)
(* ================================================================== *)

Module App.

(** What ends up on the log: the lines of [load_config], [send_osc],
    [osc_handler] and the start of the server, and the three lines of
    [stop_osc_server] and [on_start]; the line [__init__] prints when the
    window icon cannot be set goes the same way as a printed log line. *)
Inductive line : Type :=
| Core (l : log_line)
| StoppingServer
| ServerStopped
| MapperStarted
| NoWindowIcon.

(** The two calls of [messagebox.showerror]. *)
Inductive dialog : Type :=
| PortsMustBeIntegers
| FailedToStart.

(** The text of [status_var]. *)
Inductive status : Type :=
| Stopped
| RunningOn (host_ip : string) (listen_port : Z).

(** The [state] option of the widgets [_toggle_inputs] configures:
    [true] for ["normal"], [false] for ["disabled"]. *)
Record widget_states : Type :=
  { entry_listen_port : bool;
    entry_target_ip : bool;
    entry_target_port : bool;
    start_button : bool;
    stop_button : bool }.

(** The process: the globals of the router logic, the globals of the
    server ([osc_server_obj], and whether [server_thread] is set), whether
    [app_instance] is set and has its [log_text], what has been printed
    and what the debug window holds, and the attributes of the
    [OSCMapperApp] object. *)
Record app : Type :=
  { globals : world;
    osc_server_obj : option (string * Z);
    server_thread : bool;
    app_instance : bool;
    stdout : list line;
    log_text : list line;
    host_ip : string;
    listen_port_var : string;
    target_ip_var : string;
    target_port_var : string;
    running : bool;
    states : widget_states;
    status_var : status;
    dialogs : list dialog;
    destroyed : bool }.

Definition with_globals (v : world) (a : app) : app :=
  {| globals := v;
     osc_server_obj := osc_server_obj a;
     server_thread := server_thread a;
     app_instance := app_instance a;
     stdout := stdout a;
     log_text := log_text a;
     host_ip := host_ip a;
     listen_port_var := listen_port_var a;
     target_ip_var := target_ip_var a;
     target_port_var := target_port_var a;
     running := running a;
     states := states a;
     status_var := status_var a;
     dialogs := dialogs a;
     destroyed := destroyed a |}.

Definition with_osc_server_obj (v : option (string * Z)) (a : app) : app :=
  {| globals := globals a;
     osc_server_obj := v;
     server_thread := server_thread a;
     app_instance := app_instance a;
     stdout := stdout a;
     log_text := log_text a;
     host_ip := host_ip a;
     listen_port_var := listen_port_var a;
     target_ip_var := target_ip_var a;
     target_port_var := target_port_var a;
     running := running a;
     states := states a;
     status_var := status_var a;
     dialogs := dialogs a;
     destroyed := destroyed a |}.

Definition with_server_thread (v : bool) (a : app) : app :=
  {| globals := globals a;
     osc_server_obj := osc_server_obj a;
     server_thread := v;
     app_instance := app_instance a;
     stdout := stdout a;
     log_text := log_text a;
     host_ip := host_ip a;
     listen_port_var := listen_port_var a;
     target_ip_var := target_ip_var a;
     target_port_var := target_port_var a;
     running := running a;
     states := states a;
     status_var := status_var a;
     dialogs := dialogs a;
     destroyed := destroyed a |}.

Definition with_stdout (v : list line) (a : app) : app :=
  {| globals := globals a;
     osc_server_obj := osc_server_obj a;
     server_thread := server_thread a;
     app_instance := app_instance a;
     stdout := v;
     log_text := log_text a;
     host_ip := host_ip a;
     listen_port_var := listen_port_var a;
     target_ip_var := target_ip_var a;
     target_port_var := target_port_var a;
     running := running a;
     states := states a;
     status_var := status_var a;
     dialogs := dialogs a;
     destroyed := destroyed a |}.

Definition with_log_text (v : list line) (a : app) : app :=
  {| globals := globals a;
     osc_server_obj := osc_server_obj a;
     server_thread := server_thread a;
     app_instance := app_instance a;
     stdout := stdout a;
     log_text := v;
     host_ip := host_ip a;
     listen_port_var := listen_port_var a;
     target_ip_var := target_ip_var a;
     target_port_var := target_port_var a;
     running := running a;
     states := states a;
     status_var := status_var a;
     dialogs := dialogs a;
     destroyed := destroyed a |}.

Definition with_listen_port_var (v : string) (a : app) : app :=
  {| globals := globals a;
     osc_server_obj := osc_server_obj a;
     server_thread := server_thread a;
     app_instance := app_instance a;
     stdout := stdout a;
     log_text := log_text a;
     host_ip := host_ip a;
     listen_port_var := v;
     target_ip_var := target_ip_var a;
     target_port_var := target_port_var a;
     running := running a;
     states := states a;
     status_var := status_var a;
     dialogs := dialogs a;
     destroyed := destroyed a |}.

Definition with_target_ip_var (v : string) (a : app) : app :=
  {| globals := globals a;
     osc_server_obj := osc_server_obj a;
     server_thread := server_thread a;
     app_instance := app_instance a;
     stdout := stdout a;
     log_text := log_text a;
     host_ip := host_ip a;
     listen_port_var := listen_port_var a;
     target_ip_var := v;
     target_port_var := target_port_var a;
     running := running a;
     states := states a;
     status_var := status_var a;
     dialogs := dialogs a;
     destroyed := destroyed a |}.

Definition with_target_port_var (v : string) (a : app) : app :=
  {| globals := globals a;
     osc_server_obj := osc_server_obj a;
     server_thread := server_thread a;
     app_instance := app_instance a;
     stdout := stdout a;
     log_text := log_text a;
     host_ip := host_ip a;
     listen_port_var := listen_port_var a;
     target_ip_var := target_ip_var a;
     target_port_var := v;
     running := running a;
     states := states a;
     status_var := status_var a;
     dialogs := dialogs a;
     destroyed := destroyed a |}.

Definition with_running (v : bool) (a : app) : app :=
  {| globals := globals a;
     osc_server_obj := osc_server_obj a;
     server_thread := server_thread a;
     app_instance := app_instance a;
     stdout := stdout a;
     log_text := log_text a;
     host_ip := host_ip a;
     listen_port_var := listen_port_var a;
     target_ip_var := target_ip_var a;
     target_port_var := target_port_var a;
     running := v;
     states := states a;
     status_var := status_var a;
     dialogs := dialogs a;
     destroyed := destroyed a |}.

Definition with_states (v : widget_states) (a : app) : app :=
  {| globals := globals a;
     osc_server_obj := osc_server_obj a;
     server_thread := server_thread a;
     app_instance := app_instance a;
     stdout := stdout a;
     log_text := log_text a;
     host_ip := host_ip a;
     listen_port_var := listen_port_var a;
     target_ip_var := target_ip_var a;
     target_port_var := target_port_var a;
     running := running a;
     states := v;
     status_var := status_var a;
     dialogs := dialogs a;
     destroyed := destroyed a |}.

Definition with_status_var (v : status) (a : app) : app :=
  {| globals := globals a;
     osc_server_obj := osc_server_obj a;
     server_thread := server_thread a;
     app_instance := app_instance a;
     stdout := stdout a;
     log_text := log_text a;
     host_ip := host_ip a;
     listen_port_var := listen_port_var a;
     target_ip_var := target_ip_var a;
     target_port_var := target_port_var a;
     running := running a;
     states := states a;
     status_var := v;
     dialogs := dialogs a;
     destroyed := destroyed a |}.

Definition with_dialogs (v : list dialog) (a : app) : app :=
  {| globals := globals a;
     osc_server_obj := osc_server_obj a;
     server_thread := server_thread a;
     app_instance := app_instance a;
     stdout := stdout a;
     log_text := log_text a;
     host_ip := host_ip a;
     listen_port_var := listen_port_var a;
     target_ip_var := target_ip_var a;
     target_port_var := target_port_var a;
     running := running a;
     states := states a;
     status_var := status_var a;
     dialogs := v;
     destroyed := destroyed a |}.

Definition with_destroyed (v : bool) (a : app) : app :=
  {| globals := globals a;
     osc_server_obj := osc_server_obj a;
     server_thread := server_thread a;
     app_instance := app_instance a;
     stdout := stdout a;
     log_text := log_text a;
     host_ip := host_ip a;
     listen_port_var := listen_port_var a;
     target_ip_var := target_ip_var a;
     target_port_var := target_port_var a;
     running := running a;
     states := states a;
     status_var := status_var a;
     dialogs := dialogs a;
     destroyed := v |}.

Definition P (A : Type) : Type := app -> outcome A * app.

Definition ret {A : Type} (x : A) : P A := fun a => (Ret x, a).

Definition bind {A B : Type} (c : P A) (k : A -> P B) : P B :=
  fun a =>
    match c a with
    | (Ret x, a') => k x a'
    | (Raise e, a') => (Raise e, a')
    end.

Definition get : P app := fun a => (Ret a, a).

Definition modify (f : app -> app) : P unit := fun a => (Ret tt, f a).

Definition raise {A : Type} (e : exn) : P A := fun a => (Raise e, a).

(** [try: c  except Exception: ...]: the outcome of [c] as a value. *)
Definition try_ {A : Type} (c : P A) : P (outcome A) :=
  fun a => (Ret (fst (c a)), snd (c a)).

Declare Scope app_scope.
Delimit Scope app_scope with app.
Notation "x <- c ;; k" := (bind c (fun x => k))
  (at level 61, c at next level, right associativity) : app_scope.
Notation "c ;; k" := (bind c (fun _ => k))
  (at level 61, right associativity) : app_scope.
Local Open Scope app_scope.

Fixpoint lines_of (es : list event) : list line :=
  match es with
  | [] => []
  | LogGui l :: r => Core l :: lines_of r
  | SendMessage _ _ _ :: r => lines_of r
  end.

(** Lines 53-59: a line goes to the debug window when [app_instance] is
    set and to the standard output otherwise. *)
Definition deliver (ls : list line) (a : app) : app :=
  if app_instance a
  then with_log_text (log_text a ++ ls) a
  else with_stdout (stdout a ++ ls) a.

(** A piece of the router logic run in the process: it works on the
    globals, and the lines it logs are delivered as [log_gui] does. *)
Definition liftW {A : Type} (c : M A) : P A :=
  fun a =>
    (fst (c (globals a)),
     deliver (lines_of (new_events (globals a) (snd (c (globals a)))))
       (with_globals (snd (c (globals a))) a)).

(** What the system answers to a start of the server: the client cannot
    be created, the listening socket cannot be bound, or both succeed. *)
Inductive start_env : Type :=
| ClientFails
| BindFails
| Starts.

(** Lines 174-196. *)
Definition start_osc_server (listen_ip : string) (listen_port : Z)
    (target_ip : string) (target_port : Z) (env : start_env) : P unit :=
  let c := SimpleUDPClient target_ip target_port in
  match env with
  | ClientFails => raise OSError
  | _ => liftW (set_osc_client c)
  end ;;
  match env with
  | BindFails => raise OSError
  | _ => modify (with_osc_server_obj (Some (listen_ip, listen_port)))
  end ;;
  liftW (log_gui (ServerStarting listen_ip listen_port)) ;;
  liftW (log_gui (ForwardingTo c)) ;;
  modify (with_server_thread true).

(** [log_gui] for the lines of this layer. *)
Definition log_gui (l : line) : P unit := modify (deliver [l]).

(** Lines 199-208. *)
Definition stop_osc_server : P unit :=
  a <- get ;;
  match osc_server_obj a with
  | Some _ =>
      log_gui StoppingServer ;; modify (with_osc_server_obj None)
  | None => ret tt
  end ;;
  modify (with_server_thread false) ;;
  log_gui ServerStopped.

(** Lines 70-80, on what the routing lookup answers. *)
Definition get_local_ip (route : option string) : string :=
  match route with
  | Some ip => ip
  | None => "127.0.0.1"
  end.

(** Lines 328-334. *)
Definition _toggle_inputs (enabled : bool) : P unit :=
  modify (with_states
            {| entry_listen_port := enabled;
               entry_target_ip := enabled;
               entry_target_port := enabled;
               start_button := enabled;
               stop_button := negb enabled |}).

Definition showerror (d : dialog) : P unit :=
  modify (fun a => with_dialogs (dialogs a ++ [d]) a).

(** Lines 224-294, [__init__] and [_build_ui]: [route] is what
    [get_local_ip] finds, [icon_ok] whether the icon can be set. *)
Definition OSCMapperApp (route : option string) (icon_ok : bool) : P unit :=
  modify (fun a =>
    {| globals := globals a;
       osc_server_obj := osc_server_obj a;
       server_thread := server_thread a;
       app_instance := true;
       stdout := stdout a ++ (if icon_ok then [] else [NoWindowIcon]);
       log_text := [];
       host_ip := get_local_ip route;
       listen_port_var := "7000";
       target_ip_var := "127.0.0.1";
       target_port_var := "7000";
       running := false;
       states := {| entry_listen_port := true;
                    entry_target_ip := true;
                    entry_target_port := true;
                    start_button := true;
                    stop_button := false |};
       status_var := Stopped;
       dialogs := dialogs a;
       destroyed := false |}).

Section builtins.
(** [int(s)] on a string, [None] for [ValueError], and [s.strip()]. *)
Variable py_int : string -> option Z.
Variable py_strip : string -> string.

(** Lines 296-317. *)
Definition on_start (env : start_env) : P unit :=
  a <- get ;;
  if running a then ret tt
  else
    match py_int (py_strip (listen_port_var a)),
          py_int (py_strip (target_port_var a)) with
    | Some listen_port, Some target_port =>
        let target_ip := py_strip (target_ip_var a) in
        r <- try_ (start_osc_server (host_ip a) listen_port
                     target_ip target_port env) ;;
        match r with
        | Raise _ => showerror FailedToStart
        | Ret _ =>
            modify (with_running true) ;;
            _toggle_inputs false ;;
            modify (with_status_var (RunningOn (host_ip a) listen_port)) ;;
            log_gui MapperStarted
        end
    | _, _ => showerror PortsMustBeIntegers
    end.

(** Lines 319-326. *)
Definition on_stop : P unit :=
  a <- get ;;
  if negb (running a) then ret tt
  else
    stop_osc_server ;;
    modify (with_running false) ;;
    _toggle_inputs true ;;
    modify (with_status_var Stopped).

(** Lines 336-339. *)
Definition on_close : P unit :=
  a <- get ;;
  (if running a then stop_osc_server else ret tt) ;;
  modify (with_destroyed true).

(** What the user does to the window: the two buttons (with what the
    system will answer to the start), the close box, and typing into one
    of the three entries, which has an effect only while the entry is
    not disabled. *)
Inductive gui_event : Type :=
| ClickStart (env : start_env)
| ClickStop
| CloseWindow
| TypeListenPort (text : string)
| TypeTargetIp (text : string)
| TypeTargetPort (text : string).

Definition callback (ev : gui_event) : P unit :=
  match ev with
  | ClickStart env => on_start env
  | ClickStop => on_stop
  | CloseWindow => on_close
  | TypeListenPort text =>
      modify (fun a => if entry_listen_port (states a)
                       then with_listen_port_var text a else a)
  | TypeTargetIp text =>
      modify (fun a => if entry_target_ip (states a)
                       then with_target_ip_var text a else a)
  | TypeTargetPort text =>
      modify (fun a => if entry_target_port (states a)
                       then with_target_port_var text a else a)
  end.

(** [app.mainloop()]: the callbacks of the events run one after the
    other until the window is destroyed; an exception in a callback is
    reported by the toolkit and the loop goes on. *)
Fixpoint mainloop (evs : list gui_event) : P unit :=
  match evs with
  | [] => ret tt
  | ev :: rest =>
      a <- get ;;
      if destroyed a then ret tt
      else try_ (callback ev) ;; mainloop rest
  end.

(** Lines 346-352. *)
Definition main (src : config_source) (route : option string)
    (icon_ok : bool) (evs : list gui_event) : P unit :=
  liftW (load_config src) ;;
  OSCMapperApp route icon_ok ;;
  mainloop evs.

(** What holds of the window and the server between two callbacks: the
    thread and the server exist exactly while [running] is set, the
    widgets are as [_toggle_inputs] leaves them, the status line says
    whether the server runs, and while it runs the server listens where
    the status line says, on the port the entry shows, and the client
    sends to the target the entries show. *)
Definition consistent (a : app) : Prop :=
  app_instance a = true
  /\ server_thread a = running a
  /\ states a =
       {| entry_listen_port := negb (running a);
          entry_target_ip := negb (running a);
          entry_target_port := negb (running a);
          start_button := negb (running a);
          stop_button := running a |}
  /\ (running a = false ->
      osc_server_obj a = None /\ status_var a = Stopped)
  /\ (running a = true ->
      exists listen_port target_port,
        py_int (py_strip (listen_port_var a)) = Some listen_port
        /\ py_int (py_strip (target_port_var a)) = Some target_port
        /\ osc_server_obj a = Some (host_ip a, listen_port)
        /\ status_var a = RunningOn (host_ip a) listen_port
        /\ osc_client (globals a) =
             Some (SimpleUDPClient (py_strip (target_ip_var a)) target_port)).

(** ... and once the window is destroyed, the server is stopped. *)
Definition rested (a : app) : Prop :=
  (destroyed a = false -> consistent a)
  /\ (destroyed a = true ->
      osc_server_obj a = None /\ server_thread a = false).
End builtins.

(** What a callback leaves alone: the window stays, nothing is printed,
    the table and the flag are not touched. *)
Definition settled (a a' : app) : Prop :=
  app_instance a' = true
  /\ stdout a' = stdout a
  /\ VALUE_MAP (globals a') = VALUE_MAP (globals a)
  /\ FORWARD_UNMAPPED (globals a') = FORWARD_UNMAPPED (globals a).

(** The process when the module has been loaded: lines 32, 33 and 41-44;
    there is no window yet. *)
Definition boot : app :=
  {| globals := initial_world;
     osc_server_obj := None;
     server_thread := false;
     app_instance := false;
     stdout := [];
     log_text := [];
     host_ip := "";
     listen_port_var := "";
     target_ip_var := "";
     target_port_var := "";
     running := false;
     states := {| entry_listen_port := false;
                  entry_target_ip := false;
                  entry_target_port := false;
                  start_button := false;
                  stop_button := false |};
     status_var := Stopped;
     dialogs := [];
     destroyed := false |}.

(** The process when [main] enters the main loop: the configuration has
    been loaded and the window built. *)
Definition opened (src : config_source) (route : option string)
    (icon_ok : bool) : app :=
  snd ((liftW (load_config src) ;; OSCMapperApp route icon_ok) boot).

End App.

(** A reading of [int] and [strip] for plain decimal numerals without
    sign and for spaces around them, to run the examples with. *)
Fixpoint digits (s : string) (acc : Z) : option Z :=
  match s with
  | EmptyString => Some acc
  | String c r =>
      let n := Z.of_nat (nat_of_ascii c) in
      if (48 <=? n) && (n <=? 57) then digits r (10 * acc + (n - 48))
      else None
  end.

Definition decimal (s : string) : option Z :=
  match s with
  | EmptyString => None
  | _ => digits s 0
  end.

Fixpoint strip_left (s : string) : string :=
  match s with
  | String " " r => strip_left r
  | _ => s
  end.

Definition strip_spaces (s : string) : string :=
  let rev (t : string) := string_of_list_ascii (List.rev (list_ascii_of_string t)) in
  rev (strip_left (rev (strip_left s))).

(* ================================================================== *)
(** ** Properties of the key comparison *)
(* ================================================================== *)

Example one_is_one_point_zero :
  same_key (PInt 1) (PFloat (float_of_Z 1)) = true
  /\ same_key (PInt 1) (PBool true) = true
  /\ same_key (PFloat (FFinite false 4 (-2))) (PInt 1) = true
  /\ same_key (PFloat (FFinite true 0 0)) (PInt 0) = true
  /\ same_key (PInt 1) (PStr "1") = false
  /\ same_key (PInt 1) (PFloat (FFinite false 3 (-1))) = false
  /\ same_key (PFloat (FNaN 0)) (PFloat (FNaN 1)) = false.
Proof. repeat split; reflexivity. Qed.

Lemma number_eqb_eq (x y : number) : number_eqb x y = true <-> x = y.
Proof.
  destruct x as [m e | s], y as [m' e' | s']; simpl; split; intro H;
    try discriminate.
  - apply andb_true_iff in H as [H1 H2].
    apply Z.eqb_eq in H1, H2. now subst.
  - injection H as -> ->. now rewrite !Z.eqb_refl.
  - apply Bool.eqb_prop in H. now subst.
  - injection H as ->. apply Bool.eqb_reflx.
Qed.

Lemma number_eqb_refl (x : number) : number_eqb x x = true.
Proof. now apply number_eqb_eq. Qed.

Lemma number_eqb_sym (x y : number) : number_eqb x y = number_eqb y x.
Proof.
  destruct (number_eqb x y) eqn:E.
  - apply number_eqb_eq in E. subst. symmetry. apply number_eqb_refl.
  - destruct (number_eqb y x) eqn:E'; [|reflexivity].
    apply number_eqb_eq in E'. subst. now rewrite number_eqb_refl in E.
Qed.

Lemma bytes_eqb_eq (a b : list Byte.byte) : bytes_eqb a b = true <-> a = b.
Proof.
  revert b. induction a as [|x a IH]; intros [|y b]; simpl; split;
    intro H; try discriminate; try reflexivity.
  - apply andb_true_iff in H as [H1 H2].
    apply Byte.byte_dec_bl in H1. apply IH in H2. now subst.
  - injection H as -> ->. apply andb_true_iff. split.
    + now apply Byte.byte_dec_lb.
    + now apply IH.
Qed.

(** The value of [2^k * m] at exponent [e] is the value of [m] at [e + k]:
    the normal form depends on the number only. *)
Lemma strip_xO (p : positive) (e : Z) : strip (xO p) e = strip p (e + 1).
Proof. reflexivity. Qed.

Lemma dyadic_double (m e : Z) : dyadic (2 * m) e = dyadic m (e + 1).
Proof. destruct m; reflexivity. Qed.

(** A number is the same key as exactly the values with its number. *)
Lemma same_key_number (a b : pyval) (x : number) :
  py_number a = Some x ->
  same_key a b =
    match py_number b with Some y => number_eqb x y | None => false end.
Proof.
  destruct a as [ | | |[]| | | | | ]; simpl; intro H; try discriminate;
    injection H as <-; reflexivity.
Qed.

Lemma same_key_not_number (a b : pyval) (y : number) :
  py_number a = None -> py_number b = Some y -> same_key a b = false.
Proof.
  destruct a as [ | | |[]| | | | | ]; simpl; intro H; try discriminate;
    destruct b as [ | | |[]| | | | | ]; simpl; intro H'; try discriminate;
    reflexivity.
Qed.

Lemma all2_refl {A : Type} (f : A -> A -> bool) (P : A -> bool)
    (l : list A) :
  Forall (fun x => P x = true -> f x x = true) l ->
  forallb P l = true -> all2 f l l = true.
Proof.
  induction 1 as [|x l Hx _ IH]; simpl; [reflexivity|].
  intro H. apply andb_true_iff in H as [H1 H2].
  now rewrite Hx, IH.
Qed.

Lemma all2_sym {A : Type} (f : A -> A -> bool) (xs : list A) :
  Forall (fun x => forall y, f x y = f y x) xs ->
  forall ys, all2 f xs ys = all2 f ys xs.
Proof.
  induction 1 as [|x xs Hx _ IH]; intros [|y ys]; simpl; try reflexivity.
  now rewrite Hx, IH.
Qed.

Lemma all2_trans {A : Type} (f : A -> A -> bool) (xs : list A) :
  Forall (fun x => forall y z, f x y = true -> f y z = true -> f x z = true)
    xs ->
  forall ys zs,
    all2 f xs ys = true -> all2 f ys zs = true -> all2 f xs zs = true.
Proof.
  induction 1 as [|x xs Hx _ IH]; intros [|y ys] [|z zs]; simpl;
    try discriminate; try reflexivity.
  intros H1 H2.
  apply andb_true_iff in H1 as [H1 H1'], H2 as [H2 H2'].
  apply andb_true_iff. split; [eapply Hx | eapply IH]; eassumption.
Qed.

(** A hashable value is found again under itself. *)
Lemma same_key_refl (v : pyval) : hashable v = true -> same_key v v = true.
Proof.
  induction v as [ | b | z | f | s | b | l IH | l IH | d IH ]
    using pyval_deep_ind; simpl; intro H; try discriminate; try reflexivity.
  - apply number_eqb_refl.
  - apply number_eqb_refl.
  - destruct f;
      [ exact (number_eqb_refl _) | exact (number_eqb_refl _)
      | apply Nat.eqb_refl ].
  - apply String.eqb_refl.
  - now apply bytes_eqb_eq.
  - now apply all2_refl with (P := hashable).
Qed.

Lemma same_key_sym_number (a b : pyval) :
  py_number a <> None \/ py_number b <> None ->
  same_key a b = same_key b a.
Proof.
  destruct (py_number a) as [x|] eqn:Ea, (py_number b) as [y|] eqn:Eb;
    intro H.
  - rewrite (same_key_number a b x Ea), (same_key_number b a y Eb), Ea, Eb.
    apply number_eqb_sym.
  - rewrite (same_key_number a b x Ea), Eb.
    symmetry. now apply same_key_not_number with (y := x).
  - rewrite (same_key_number b a y Eb), Ea.
    now apply same_key_not_number with (y := y).
  - now destruct H.
Qed.

Ltac by_number :=
  apply same_key_sym_number; simpl;
  first [ left; discriminate | right; discriminate ].

Lemma same_key_sym (a b : pyval) : same_key a b = same_key b a.
Proof.
  revert b.
  induction a as [ | b0 | z | f | s | b0 | l IH | l IH | d IH ]
    using pyval_deep_ind; intro b.
  - destruct b as [ | | |[]| | | | | ]; reflexivity.
  - by_number.
  - by_number.
  - destruct f as [neg m e | neg | i]; [by_number | by_number | ].
    destruct b as [ | | |[]| | | | | ]; try reflexivity.
    apply Nat.eqb_sym.
  - destruct b as [ | | |[]| | | | | ]; try reflexivity.
    apply String.eqb_sym.
  - destruct b as [ | | |[]| | | | | ]; try reflexivity.
    simpl. destruct (bytes_eqb b0 b) eqn:E.
    + apply bytes_eqb_eq in E. subst. symmetry. now apply bytes_eqb_eq.
    + destruct (bytes_eqb b b0) eqn:E'; [|reflexivity].
      apply bytes_eqb_eq in E'. subst.
      assert (bytes_eqb b0 b0 = true) by now apply bytes_eqb_eq.
      congruence.
  - destruct b as [ | | |[]| | | | | ]; reflexivity.
  - destruct b as [ | | |[]| | | | | ]; try reflexivity.
    simpl. now apply all2_sym.
  - destruct b as [ | | |[]| | | | | ]; reflexivity.
Qed.

Lemma same_key_trans (a b c : pyval) :
  same_key a b = true -> same_key b c = true -> same_key a c = true.
Proof.
  revert b c.
  induction a as [ | b0 | z | f | s | b0 | l IH | l IH | d IH ]
    using pyval_deep_ind; intros b c Hab Hbc;
    try discriminate.
  - destruct b; try discriminate. exact Hbc.
  - destruct (py_number b) as [y|] eqn:Eb.
    + rewrite (same_key_number (PBool b0) b _ eq_refl), Eb in Hab.
      apply number_eqb_eq in Hab.
      rewrite (same_key_number b c _ Eb) in Hbc.
      rewrite (same_key_number (PBool b0) c _ eq_refl).
      now rewrite Hab.
    + now rewrite (same_key_number (PBool b0) b _ eq_refl), Eb in Hab.
  - destruct (py_number b) as [y|] eqn:Eb.
    + rewrite (same_key_number (PInt z) b _ eq_refl), Eb in Hab.
      apply number_eqb_eq in Hab.
      rewrite (same_key_number b c _ Eb) in Hbc.
      rewrite (same_key_number (PInt z) c _ eq_refl).
      now rewrite Hab.
    + now rewrite (same_key_number (PInt z) b _ eq_refl), Eb in Hab.
  - destruct (py_number (PFloat f)) as [x|] eqn:Ea.
    + destruct (py_number b) as [y|] eqn:Eb.
      * rewrite (same_key_number _ b _ Ea), Eb in Hab.
        apply number_eqb_eq in Hab.
        rewrite (same_key_number b c _ Eb) in Hbc.
        rewrite (same_key_number _ c _ Ea).
        now rewrite Hab.
      * now rewrite (same_key_number _ b _ Ea), Eb in Hab.
    + destruct f; try discriminate.
      destruct b as [ | | |[]| | | | | ]; try discriminate.
      destruct c as [ | | |[]| | | | | ]; try discriminate.
      simpl in *. apply Nat.eqb_eq in Hab, Hbc. subst. apply Nat.eqb_refl.
  - destruct b; try discriminate. destruct c; try discriminate.
    simpl in *. apply String.eqb_eq in Hab, Hbc. subst. apply String.eqb_refl.
  - destruct b; try discriminate. destruct c; try discriminate.
    simpl in *. apply bytes_eqb_eq in Hab, Hbc. subst. now apply bytes_eqb_eq.
  - destruct b; try discriminate. destruct c; try discriminate.
    simpl in *. eapply all2_trans; eassumption.
Qed.

(* ================================================================== *)
(** ** Properties of the dictionary *)
(* ================================================================== *)

Section dict_facts.
Context {V : Type}.
Implicit Types (d : Dict.dict V) (k : pyval) (v : V).

Lemma update_keys d k v k' v' :
  In (k', v') (Dict.update d k v) ->
  (exists v0, In (k', v0) d) \/ k' = k.
Proof.
  induction d as [|[k0 v0] r IH]; simpl.
  - intros [H|[]]. injection H as <- <-. now right.
  - destruct (same_key k0 k).
    + intros [H|H].
      * injection H as <- <-. left. exists v0. now left.
      * left. exists v'. now right.
    + intros [H|H].
      * injection H as <- <-. left. exists v0. now left.
      * destruct (IH H) as [[v1 H1]|H1]; [left; exists v1; now right|].
        now right.
Qed.

Lemma wf_update d k v :
  Dict.wf d -> hashable k = true -> Dict.wf (Dict.update d k v).
Proof.
  induction d as [|[k0 v0] r IH]; simpl; intros Hwf Hk.
  - repeat split; [assumption | intros ? ? []].
  - destruct Hwf as (Hk0 & Hfresh & Hr).
    destruct (same_key k0 k) eqn:E; simpl.
    + now repeat split.
    + repeat split; [assumption | | now apply IH].
      intros k' v' Hin.
      destruct (update_keys _ _ _ _ _ Hin) as [[v1 H1]| ->].
      * eapply Hfresh; eassumption.
      * exact E.
Qed.

(** In a dictionary an entry is found under its own key. *)
Lemma find_In d k v :
  Dict.wf d -> In (k, v) d -> Dict.find d k = Some (k, v).
Proof.
  induction d as [|[k0 v0] r IH]; simpl; [intros _ []|].
  intros (Hk0 & Hfresh & Hr) [H|H].
  - injection H as -> ->. now rewrite same_key_refl.
  - rewrite (Hfresh _ _ H). now apply IH.
Qed.

Lemma find_Some d k k0 v :
  Dict.find d k = Some (k0, v) -> In (k0, v) d /\ same_key k0 k = true.
Proof.
  induction d as [|[k1 v1] r IH]; simpl; [discriminate|].
  destruct (same_key k1 k) eqn:E.
  - intro H. injection H as <- <-. split; [now left | assumption].
  - intro H. destruct (IH H). split; [now right | assumption].
Qed.

Lemma find_None d k :
  Dict.find d k = None -> forall k0 v, In (k0, v) d -> same_key k0 k = false.
Proof.
  induction d as [|[k1 v1] r IH]; simpl; [intros _ ? ? []|].
  destruct (same_key k1 k) eqn:E; [discriminate|].
  intros H k0 v [H0|H0].
  - now injection H0 as <- <-.
  - eapply IH; eassumption.
Qed.

(** After [d[k] = v], a probe that is the same key as [k] finds [v]. *)
Lemma find_update_same d k v k' :
  same_key k k' = true ->
  exists k0, Dict.find (Dict.update d k v) k' = Some (k0, v)
             /\ same_key k0 k = true.
Proof.
  intro Hkk'.
  induction d as [|[k0 v0] r IH]; simpl.
  - rewrite Hkk'. exists k. split; [reflexivity|].
    rewrite same_key_sym in Hkk'.
    eapply same_key_trans; [|eassumption].
    now rewrite same_key_sym.
  - destruct (same_key k0 k) eqn:E; simpl.
    + rewrite (same_key_trans _ _ _ E Hkk'). now exists k0.
    + destruct (same_key k0 k') eqn:E'; [|exact IH].
      rewrite same_key_sym in Hkk'.
      now rewrite (same_key_trans _ _ _ E' Hkk') in E.
Qed.

(** ... and any other probe finds what it found before. *)
Lemma find_update_other d k v k' :
  same_key k k' = false ->
  Dict.find (Dict.update d k v) k' = Dict.find d k'.
Proof.
  intro Hkk'.
  induction d as [|[k0 v0] r IH]; simpl.
  - now rewrite Hkk'.
  - destruct (same_key k0 k) eqn:E; simpl.
    + destruct (same_key k0 k') eqn:E'; [|reflexivity].
      rewrite same_key_sym in E.
      now rewrite (same_key_trans _ _ _ E E') in Hkk'.
    + now rewrite IH.
Qed.
End dict_facts.

Lemma wf_In_hashable {V : Type} (d : Dict.dict V) (k : pyval) (v : V) :
  Dict.wf d -> In (k, v) d -> hashable k = true.
Proof.
  induction d as [|[k0 v0] r IH]; simpl; [intros _ []|].
  intros (Hk0 & _ & Hr) [H|H].
  - now injection H as <- <-.
  - now apply IH.
Qed.

(** In a dictionary a probe finds the one entry whose key it is. *)
Lemma find_In_same {V : Type} (d : Dict.dict V) (k0 k : pyval) (v : V) :
  Dict.wf d -> In (k0, v) d -> same_key k0 k = true ->
  Dict.find d k = Some (k0, v).
Proof.
  intros Hwf Hin Hk.
  induction d as [|[k1 v1] r IH]; simpl in *; [contradiction|].
  destruct Hwf as (Hk1 & Hfresh & Hr). destruct Hin as [H|H].
  - injection H as -> ->. now rewrite Hk.
  - destruct (same_key k1 k) eqn:E; [|now apply IH].
    rewrite same_key_sym in Hk.
    pose proof (same_key_trans _ _ _ E Hk) as F.
    rewrite (Hfresh _ _ H) in F. discriminate.
Qed.

(* ================================================================== *)
(** ** Running [send_osc] and [osc_handler] *)
(* ================================================================== *)

Lemma logged_logged (w : world) (es es' : list event) :
  logged (logged w es) es' = logged w (es ++ es').
Proof. unfold logged; simpl. now rewrite app_assoc. Qed.

Lemma send_osc_run (sent : outcome unit) (address out_args : pyval)
    (w : world) :
  send_osc sent address out_args w =
    match osc_client w with
    | None => (Ret tt, logged w [LogGui WarnNoClient])
    | Some c =>
        (sent, logged w (send_events sent c address (send_args out_args)))
    end.
Proof.
  unfold send_osc, send_events, bind, read, lift, log_gui, emit, logged;
    simpl.
  destruct (osc_client w) as [c|] eqn:E; simpl; rewrite ?E;
    [|reflexivity].
  destruct sent as [[]|e]; simpl; rewrite ?E;
    [now rewrite <- app_assoc | reflexivity].
Qed.

(** [osc_handler] in one step: the receipt is logged, the key is hashed
    and looked up, and the branch taken depends on what was found. *)
Lemma osc_handler_run (sent : outcome unit) (address : pyval)
    (args : list pyval) (w : world) :
  osc_handler sent address args w =
    let w1 := logged w [LogGui (RecvLine address args)] in
    if hashable (key_of address args) then
      match Dict.find (VALUE_MAP w) (key_of address args) with
      | Some (_, (out_address, out_args)) =>
          send_osc sent out_address out_args w1
      | None =>
          if FORWARD_UNMAPPED w
          then send_osc sent address (PList args) w1
          else (Ret tt, logged w1 [LogGui (Ignored (key_of address args))])
      end
    else (Raise TypeError, w1).
Proof.
  unfold osc_handler, bind, read, lift, log_gui, emit, logged,
    Dict.contains, Dict.getitem.
  generalize (key_of address args) as key; intro key; simpl.
  destruct (hashable key); [|reflexivity].
  destruct (Dict.find (VALUE_MAP w) key)
    as [[k [out_address out_args]]|]; [reflexivity|].
  destruct (FORWARD_UNMAPPED w); reflexivity.
Qed.

(** A first argument that cannot be hashed (an OSC array arrives as a
    list) stops the handler at the membership test. *)
Lemma osc_handler_unhashable (sent : outcome unit) (address : pyval)
    (args : list pyval) (w : world) :
  hashable (key_of address args) = false ->
  osc_handler sent address args w =
    (Raise TypeError, logged w [LogGui (RecvLine address args)]).
Proof. intro H. now rewrite osc_handler_run, H. Qed.

(** The handler when the lookup finds a rule, with a client. *)
Lemma osc_handler_found (sent : outcome unit) (address : pyval)
    (args : list pyval) (w : world) (c : client)
    (k out_address out_args : pyval) :
  hashable (key_of address args) = true ->
  Dict.find (VALUE_MAP w) (key_of address args) =
    Some (k, (out_address, out_args)) ->
  osc_client w = Some c ->
  osc_handler sent address args w =
    (sent,
     logged w
       (LogGui (RecvLine address args)
        :: send_events sent c out_address (send_args out_args))).
Proof.
  intros Hh Hf Hc. rewrite osc_handler_run. cbv zeta.
  rewrite Hh, Hf, send_osc_run. cbn [osc_client logged]. rewrite Hc.
  now rewrite logged_logged.
Qed.

(** The handler when the lookup finds nothing. *)
Lemma osc_handler_missed (sent : outcome unit) (address : pyval)
    (args : list pyval) (w : world) :
  hashable (key_of address args) = true ->
  Dict.find (VALUE_MAP w) (key_of address args) = None ->
  (FORWARD_UNMAPPED w = true ->
   osc_handler sent address args w =
     (log_gui (RecvLine address args) ;; send_osc sent address (PList args)) w
   /\ forall c,
        osc_client w = Some c ->
        osc_handler sent address args w =
          (sent,
           logged w
             (LogGui (RecvLine address args)
              :: send_events sent c address args)))
  /\ (FORWARD_UNMAPPED w = false ->
      osc_handler sent address args w =
        (Ret tt,
         logged w
           [LogGui (RecvLine address args);
            LogGui (Ignored (key_of address args))])).
Proof.
  intros Hh Hf. rewrite osc_handler_run. cbv zeta. rewrite Hh, Hf.
  split; intros ->.
  - split; [reflexivity|]. intros c Hc.
    rewrite send_osc_run. cbn [osc_client logged]. rewrite Hc.
    now rewrite logged_logged.
  - now rewrite logged_logged.
Qed.

(** No stored key is the probe's: the lookup finds nothing. *)
Lemma find_no_entry {V : Type} (d : Dict.dict V) (k : pyval) :
  (forall k0 v, In (k0, v) d -> same_key k0 k = false) ->
  Dict.find d k = None.
Proof.
  intro H. destruct (Dict.find d k) as [[k0 v]|] eqn:E; [|reflexivity].
  apply find_Some in E as [Hin Hs]. now rewrite (H _ _ Hin) in Hs.
Qed.

Lemma contains_false {V : Type} (d : Dict.dict V) (k : pyval) :
  Dict.contains d k = Ret false ->
  hashable k = true /\ Dict.find d k = None.
Proof.
  unfold Dict.contains. destruct (hashable k); [|discriminate].
  destruct (Dict.find d k); [discriminate|]. now split.
Qed.

(** The membership test answers [False] exactly when the probe can be
    hashed and no stored key is the probe's. *)
Lemma contains_false_iff {V : Type} (d : Dict.dict V) (k : pyval) :
  Dict.contains d k = Ret false <->
  hashable k = true
  /\ forall k0 v, In (k0, v) d -> same_key k0 k = false.
Proof.
  split.
  - intro H. apply contains_false in H as [Hh Hf].
    split; [exact Hh | now apply find_None].
  - intros [Hh Hall]. unfold Dict.contains. rewrite Hh.
    destruct (Dict.find d k) as [[k0 v]|] eqn:E; [|reflexivity].
    apply find_Some in E as [Hin Hs]. now rewrite (Hall _ _ Hin) in Hs.
Qed.

(** The handler reads the globals and leaves them as they are. *)
Lemma osc_handler_globals (sent : outcome unit) (address : pyval)
    (args : list pyval) (w : world) :
  let w' := snd (osc_handler sent address args w) in
  VALUE_MAP w' = VALUE_MAP w
  /\ FORWARD_UNMAPPED w' = FORWARD_UNMAPPED w
  /\ osc_client w' = osc_client w.
Proof.
  cbv zeta. rewrite osc_handler_run. cbv zeta.
  destruct (hashable (key_of address args)); [|now repeat split].
  destruct (Dict.find (VALUE_MAP w) (key_of address args))
    as [[k [out_address out_args]]|].
  - rewrite send_osc_run. cbn [osc_client logged].
    destruct (osc_client w) eqn:Ec; simpl; rewrite ?Ec; now repeat split.
  - destruct (FORWARD_UNMAPPED w) eqn:E.
    + rewrite send_osc_run. cbn [osc_client logged].
      destruct (osc_client w) eqn:Ec; simpl; rewrite ?Ec, ?E;
        now repeat split.
    + simpl. now rewrite E.
Qed.

Lemma skipn_length_app {A : Type} (l es : list A) :
  skipn (List.length l) (l ++ es) = es.
Proof. induction l as [|e l IH]; [reflexivity | exact IH]. Qed.

Lemma new_events_logged (w : world) (es : list event) :
  new_events w (logged w es) = es.
Proof. apply skipn_length_app. Qed.

Lemma same_key_None (v : pyval) : same_key PNone v = true -> v = PNone.
Proof. destruct v; simpl; try discriminate; reflexivity. Qed.

Lemma same_key_pair (a v a' v' : pyval) :
  same_key (PTuple [a; v]) (PTuple [a'; v']) = same_key a a' && same_key v v'.
Proof. simpl. now rewrite andb_true_r. Qed.

Lemma hashable_pair (a v : pyval) :
  hashable (PTuple [a; v]) = hashable a && hashable v.
Proof. simpl. now rewrite andb_true_r. Qed.

(* ================================================================== *)
(** ** Dispatch *)
(* ================================================================== *)

Lemma mapped_hit_In (w : world) (A V : pyval) (rest : list pyval)
    (k : pyval) (out : rule_out) :
  Dict.wf (VALUE_MAP w) ->
  In (k, out) (VALUE_MAP w) ->
  same_key k (PTuple [A; V]) = true ->
  hashable V = true ->
  hashable A = true ->
  mapped_hit w A (V :: rest) (k, out).
Proof.
  intros Hwf Hin Hk HV HA.
  pose proof (find_In_same _ _ _ _ Hwf Hin Hk) as F.
  unfold mapped_hit, Dict.contains, key_of, first_arg.
  rewrite hashable_pair, HA, HV, F. now split.
Qed.

Lemma log_gui_then {A : Type} (l : log_line) (k : M A) (w : world) :
  (log_gui l ;; k) w = k (logged w [LogGui l]).
Proof. reflexivity. Qed.

Lemma mapped_hit_run (sent : outcome unit) (w : world) (address : pyval)
    (args : list pyval) (k out_address out_args : pyval) :
  mapped_hit w address args (k, (out_address, out_args)) ->
  osc_handler sent address args w =
    (log_gui (RecvLine address args) ;; send_osc sent out_address out_args) w
  /\ forall c,
       osc_client w = Some c ->
       osc_handler sent address args w =
         (sent,
          logged w
            (LogGui (RecvLine address args)
             :: send_events sent c out_address (send_args out_args))).
Proof.
  intros [Hc Hf]. unfold Dict.contains in Hc.
  destruct (hashable (key_of address args)) eqn:Hh; [|discriminate].
  split.
  - rewrite osc_handler_run. cbv zeta. now rewrite Hh, Hf.
  - intros c Hcl. now apply osc_handler_found with (k := k).
Qed.

(** An entry of the table is hit by every message with its address and
    its value in front. *)
Lemma entry_hit (w : world) (A V out_address out_args : pyval)
    (rest : list pyval) :
  Dict.wf (VALUE_MAP w) ->
  In (PTuple [A; V], (out_address, out_args)) (VALUE_MAP w) ->
  mapped_hit w A (V :: rest) (PTuple [A; V], (out_address, out_args))
  /\ hashable (PTuple [A; V]) = true.
Proof.
  intros Hwf Hin.
  pose proof (wf_In_hashable _ _ _ Hwf Hin) as Hh.
  split; [|exact Hh].
  rewrite hashable_pair in Hh. apply andb_true_iff in Hh as [HA HV].
  apply mapped_hit_In; try assumption.
  apply same_key_refl. rewrite hashable_pair, HA, HV. reflexivity.
Qed.

(** C1 (exact match).  A table that holds an entry keyed [(A, V)] answers
    every message at address [A] whose first argument is [V], whatever
    follows [V] and whatever [FORWARD_UNMAPPED] is, with that entry: the
    handler logs the receipt and calls [send_osc] with the entry's
    [out_address] and [out_args] as stored.  With the client of a started
    server, [send_osc] logs and passes to [send_message] the entry's
    [out_address] and arguments (an [out_args] that is a list is passed as
    it is), nothing of the inbound arguments; the message goes out when
    [send_message] returns, and what [send_message] raises leaves the
    handler. *)
Theorem C1_exact_match (w : world) (sent : outcome unit)
    (A V out_address out_args : pyval) (rest : list pyval) :
  Dict.wf (VALUE_MAP w) ->
  In (PTuple [A; V], (out_address, out_args)) (VALUE_MAP w) ->
  mapped_hit w A (V :: rest) (PTuple [A; V], (out_address, out_args))
  /\ osc_handler sent A (V :: rest) w =
       (log_gui (RecvLine A (V :: rest)) ;;
        send_osc sent out_address out_args) w
  /\ (forall c,
        osc_client w = Some c ->
        osc_handler sent A (V :: rest) w =
          (sent,
           logged w
             (LogGui (RecvLine A (V :: rest))
              :: send_events sent c out_address (send_args out_args))))
  /\ (forall l, out_args = PList l -> send_args out_args = l).
Proof.
  intros Hwf Hin.
  destruct (entry_hit w A V out_address out_args rest Hwf Hin) as [Hhit _].
  destruct (mapped_hit_run sent _ _ _ _ _ _ Hhit) as [H1 H2].
  split; [exact Hhit|]. split; [exact H1|].
  split; [exact H2 | now intros l ->].
Qed.

Lemma C1_exact_match_witness :
  osc_handler (Ret tt) (PStr "/btn/1") [PInt 1; PStr "tail"; PInt 9]
    (running (config false [btn_rule])) =
    (Ret tt,
     logged (running (config false [btn_rule]))
       [LogGui (RecvLine (PStr "/btn/1") [PInt 1; PStr "tail"; PInt 9]);
        LogGui (SendLine (PStr "/light/1") [PInt 255]);
        SendMessage localhost (PStr "/light/1") [PInt 255]])
  /\ osc_handler (Raise OSError) (PStr "/btn/1")
       [PInt 1; PStr "tail"; PInt 9]
       (running (config false [btn_rule])) =
     (Raise OSError,
      logged (running (config false [btn_rule]))
        [LogGui (RecvLine (PStr "/btn/1") [PInt 1; PStr "tail"; PInt 9]);
         LogGui (SendLine (PStr "/light/1") [PInt 255])]).
Proof.
  split.
  - refine (proj1 (proj2 (proj2
      (C1_exact_match (running (config false [btn_rule])) (Ret tt)
         (PStr "/btn/1") (PInt 1) (PStr "/light/1") (PList [PInt 255])
         [PStr "tail"; PInt 9] _ _))) localhost _).
    + simpl. repeat split. intros k v [].
    + simpl. left. reflexivity.
    + reflexivity.
  - refine (proj1 (proj2 (proj2
      (C1_exact_match (running (config false [btn_rule])) (Raise OSError)
         (PStr "/btn/1") (PInt 1) (PStr "/light/1") (PList [PInt 255])
         [PStr "tail"; PInt 9] _ _))) localhost _).
    + simpl. repeat split. intros k v [].
    + simpl. left. reflexivity.
    + reflexivity.
Defined.

(** C2 (passthrough), as the code has it.  With [FORWARD_UNMAPPED] true
    and no entry of the table stored under the message's key: when the
    key can be hashed, the handler logs the receipt and calls [send_osc]
    with the inbound address and the inbound arguments, and with the
    client of a started server [send_osc] logs and passes to
    [send_message] the inbound message, same address, same arguments in
    the same order, which goes out when [send_message] returns; when the
    key cannot be hashed (the first argument is an OSC array), the
    membership test raises [TypeError] once the receipt is logged and
    nothing is forwarded. *)
Theorem C2_passthrough (w : world) (sent : outcome unit) (address : pyval)
    (args : list pyval) :
  FORWARD_UNMAPPED w = true ->
  (forall k out,
     In (k, out) (VALUE_MAP w) -> same_key k (key_of address args) = false) ->
  (hashable (key_of address args) = true ->
   osc_handler sent address args w =
     (log_gui (RecvLine address args) ;; send_osc sent address (PList args)) w
   /\ forall c,
        osc_client w = Some c ->
        osc_handler sent address args w =
          (sent,
           logged w
             (LogGui (RecvLine address args)
              :: send_events sent c address args)))
  /\ (hashable (key_of address args) = false ->
      osc_handler sent address args w =
        (Raise TypeError, logged w [LogGui (RecvLine address args)])).
Proof.
  intros Hfu Hno. split.
  - intro Hh.
    exact (proj1 (osc_handler_missed sent address args w Hh
                    (find_no_entry _ _ Hno)) Hfu).
  - apply osc_handler_unhashable.
Qed.

Lemma C2_passthrough_witness :
  osc_handler (Ret tt) (PStr "/btn/2") [PInt 1; PStr "x"]
    (running (config true [btn_rule])) =
    (Ret tt,
     logged (running (config true [btn_rule]))
       [LogGui (RecvLine (PStr "/btn/2") [PInt 1; PStr "x"]);
        LogGui (SendLine (PStr "/btn/2") [PInt 1; PStr "x"]);
        SendMessage localhost (PStr "/btn/2") [PInt 1; PStr "x"]]).
Proof.
  refine (proj2 (proj1
    (C2_passthrough (running (config true [btn_rule])) (Ret tt)
       (PStr "/btn/2") [PInt 1; PStr "x"] _ _) _) localhost _);
    try reflexivity.
  intros k out [H|[]]. now injection H as <- _.
Defined.

(** With forwarding switched on, no entry of the table is stored under
    the key of the message [/btn/2] whose single argument is the array
    [[1]], and the message is not forwarded: the handler raises
    [TypeError] after the receipt line. *)
Lemma C2_counterexample :
  let w := running (config true [btn_rule]) in
  FORWARD_UNMAPPED w = true
  /\ (forall k out,
        In (k, out) (VALUE_MAP w) ->
        same_key k (key_of (PStr "/btn/2") [PList [PInt 1]]) = false)
  /\ osc_handler (Ret tt) (PStr "/btn/2") [PList [PInt 1]] w =
       (Raise TypeError,
        logged w [LogGui (RecvLine (PStr "/btn/2") [PList [PInt 1]])])
  /\ sends (new_events w
              (snd (osc_handler (Ret tt) (PStr "/btn/2") [PList [PInt 1]] w)))
     = [].
Proof.
  cbv zeta. split; [reflexivity|]. split; [|split; reflexivity].
  intros k out [H|[]]. now injection H as <- _.
Qed.

(** C3 (drop), as the code has it.  With [FORWARD_UNMAPPED] false and no
    entry of the table stored under the message's key, no message goes
    out: when the key can be hashed, the handler completes having written
    two lines to the log, the receipt and the "Ignored" line; when the key
    cannot be hashed (the first argument is an OSC array), the membership
    test raises [TypeError] once the receipt is logged, and there is no
    "Ignored" line. *)
Theorem C3_drop (w : world) (sent : outcome unit) (address : pyval)
    (args : list pyval) :
  FORWARD_UNMAPPED w = false ->
  (forall k out,
     In (k, out) (VALUE_MAP w) -> same_key k (key_of address args) = false) ->
  (hashable (key_of address args) = true ->
   osc_handler sent address args w =
     (Ret tt,
      logged w
        [LogGui (RecvLine address args);
         LogGui (Ignored (key_of address args))]))
  /\ (hashable (key_of address args) = false ->
      osc_handler sent address args w =
        (Raise TypeError, logged w [LogGui (RecvLine address args)]))
  /\ sends (new_events w (snd (osc_handler sent address args w))) = [].
Proof.
  intros Hfu Hno.
  assert (H1 : hashable (key_of address args) = true ->
               osc_handler sent address args w =
                 (Ret tt,
                  logged w
                    [LogGui (RecvLine address args);
                     LogGui (Ignored (key_of address args))])).
  { intro Hh.
    exact (proj2 (osc_handler_missed sent address args w Hh
                    (find_no_entry _ _ Hno)) Hfu). }
  split; [exact H1|]. split; [apply osc_handler_unhashable|].
  destruct (hashable (key_of address args)) eqn:Hh.
  - rewrite (H1 eq_refl). cbn [snd]. now rewrite new_events_logged.
  - rewrite (osc_handler_unhashable sent address args w Hh). cbn [snd].
    now rewrite new_events_logged.
Qed.

Lemma C3_drop_witness :
  osc_handler (Ret tt) (PStr "/btn/1") [PInt 0]
    (running (config false [btn_rule])) =
    (Ret tt,
     logged (running (config false [btn_rule]))
       [LogGui (RecvLine (PStr "/btn/1") [PInt 0]);
        LogGui (Ignored (PTuple [PStr "/btn/1"; PInt 0]))]).
Proof.
  refine (proj1
    (C3_drop (running (config false [btn_rule])) (Ret tt)
       (PStr "/btn/1") [PInt 0] _ _) _); try reflexivity.
  intros k out [H|[]]. now injection H as <- _.
Defined.

(** With forwarding switched off, no entry of the table is stored under
    the key of the message [/btn/2] whose single argument is the array
    [[1]]; the handler raises [TypeError] after the receipt line, and no
    "Ignored" line is logged. *)
Lemma C3_counterexample :
  let w := running (config false [btn_rule]) in
  FORWARD_UNMAPPED w = false
  /\ (forall k out,
        In (k, out) (VALUE_MAP w) ->
        same_key k (key_of (PStr "/btn/2") [PList [PInt 1]]) = false)
  /\ osc_handler (Ret tt) (PStr "/btn/2") [PList [PInt 1]] w =
       (Raise TypeError,
        logged w [LogGui (RecvLine (PStr "/btn/2") [PList [PInt 1]])])
  /\ ~ In (LogGui (Ignored (key_of (PStr "/btn/2") [PList [PInt 1]])))
         (new_events w
            (snd (osc_handler (Ret tt) (PStr "/btn/2") [PList [PInt 1]] w))).
Proof.
  cbv zeta. split; [reflexivity|]. split; [|split; [reflexivity|]].
  - intros k out [H|[]]. now injection H as <- _.
  - intros [H|[]]. discriminate.
Qed.

Lemma mapped_hit_same_key (w : world) (address : pyval) (args : list pyval)
    (k : pyval) (out : rule_out) :
  mapped_hit w address args (k, out) ->
  same_key k (key_of address args) = true.
Proof. intros [_ Hf]. now apply find_Some in Hf. Qed.

(** C9 (absent value), as the code has it.  A rule stored under
    [(A, None)] answers the message at [A] with no argument; it does not
    answer a message at [A] whose first argument is anything but [None];
    and it does answer a message at [A] whose first argument is [None]
    (an OSC Nil), which [first_arg] cannot tell from no argument. *)
Theorem C9_absent_value (w : world) (sent : outcome unit)
    (A out_address out_args : pyval) :
  Dict.wf (VALUE_MAP w) ->
  In (PTuple [A; PNone], (out_address, out_args)) (VALUE_MAP w) ->
  (mapped_hit w A [] (PTuple [A; PNone], (out_address, out_args))
   /\ osc_handler sent A [] w =
        (log_gui (RecvLine A []) ;; send_osc sent out_address out_args) w
   /\ (forall c,
         osc_client w = Some c ->
         osc_handler sent A [] w =
           (sent,
            logged w
              (LogGui (RecvLine A [])
               :: send_events sent c out_address (send_args out_args)))))
  /\ (forall v rest,
        v <> PNone ->
        ~ mapped_hit w A (v :: rest)
            (PTuple [A; PNone], (out_address, out_args)))
  /\ (forall rest,
        mapped_hit w A (PNone :: rest)
          (PTuple [A; PNone], (out_address, out_args))).
Proof.
  intros Hwf Hin.
  assert (Hhit : forall rest,
             mapped_hit w A (PNone :: rest)
               (PTuple [A; PNone], (out_address, out_args))).
  { intro rest.
    destruct (entry_hit w A PNone out_address out_args rest Hwf Hin)
      as [H _]. exact H. }
  assert (H0 : mapped_hit w A []
                 (PTuple [A; PNone], (out_address, out_args))).
  { destruct (Hhit []) as [H1 H2]. split; assumption. }
  destruct (mapped_hit_run sent _ _ _ _ _ _ H0) as [R1 R2].
  split; [split; [|split]|split].
  - exact H0.
  - exact R1.
  - exact R2.
  - intros v rest Hv Hm. apply mapped_hit_same_key in Hm.
    unfold key_of, first_arg in Hm. rewrite same_key_pair in Hm.
    apply andb_true_iff in Hm as [_ Hm]. now apply same_key_None in Hm.
  - exact Hhit.
Qed.

Lemma C9_absent_value_witness :
  osc_handler (Ret tt) (PStr "/stop") []
    (running (config false [absent_rule])) =
    (Ret tt,
     logged (running (config false [absent_rule]))
       [LogGui (RecvLine (PStr "/stop") []);
        LogGui (SendLine (PStr "/transport") [PInt 0]);
        SendMessage localhost (PStr "/transport") [PInt 0]])
  /\ ~ mapped_hit (running (config false [absent_rule]))
         (PStr "/stop") [PInt 5]
         (PTuple [PStr "/stop"; PNone], (PStr "/transport", PList [PInt 0])).
Proof.
  pose proof (C9_absent_value (running (config false [absent_rule]))
                (Ret tt)
                (PStr "/stop") (PStr "/transport") (PList [PInt 0])) as H.
  simpl in H.
  destruct H as [(_ & _ & H1) [H2 _]].
  - repeat split. intros k v [].
  - left. reflexivity.
  - split; [apply (H1 localhost); reflexivity|]. apply H2. discriminate.
Defined.

(** The message [/stop] with the single argument [None] carries one
    argument and is answered by the rule stored under [("/stop", None)],
    with forwarding of unmapped messages switched off. *)
Lemma C9_counterexample :
  let w := running (config false [absent_rule]) in
  let hit := (PTuple [PStr "/stop"; PNone],
              (PStr "/transport", PList [PInt 0])) in
  VALUE_MAP w = [hit]
  /\ FORWARD_UNMAPPED w = false
  /\ List.length [PNone] = 1%nat
  /\ mapped_hit w (PStr "/stop") [PNone] hit
  /\ osc_handler (Ret tt) (PStr "/stop") [PNone] w =
       (Ret tt,
        logged w
          [LogGui (RecvLine (PStr "/stop") [PNone]);
           LogGui (SendLine (PStr "/transport") [PInt 0]);
           SendMessage localhost (PStr "/transport") [PInt 0]]).
Proof. repeat split. Qed.

Lemma strip_exponent (p q : positive) (e e' : Z) :
  strip p e = (q, e') -> (e' = e /\ q = p) \/ e < e'.
Proof.
  revert e. induction p as [p IH|p IH|]; simpl; intros e H.
  - injection H as <- <-. now left.
  - right. destruct (IH _ H) as [[-> _]|Hlt]; lia.
  - injection H as <- <-. now left.
Qed.

(** The only integer whose value is one is [1]. *)
Lemma dyadic_int_one (z : Z) : dyadic z 0 = NumFin 1 0 -> z = 1.
Proof.
  destruct z as [|p|p]; simpl; try discriminate.
  - destruct (strip p 0) as [q e'] eqn:E. intro H. injection H as -> ->.
    destruct (strip_exponent _ _ _ _ E) as [[_ <-]|Hlt]; [reflexivity|lia].
  - destruct (strip p 0) as [q e']. discriminate.
Qed.

Lemma same_key_one (v : pyval) :
  same_key (PInt 1) v = true <-> py_number v = Some (NumFin 1 0).
Proof.
  rewrite (same_key_number (PInt 1) v _ eq_refl).
  destruct (py_number v) as [y|]; [|split; discriminate].
  change (dyadic 1 0) with (NumFin 1 0).
  rewrite number_eqb_eq. split; congruence.
Qed.

(** C4 (what equality the match uses), as the code has it.  The first
    argument is compared with the rule's value as dictionary keys are:
    [bool], [int] and [float] by their numeric value, everything else
    within its own type.  A rule stored under [(A, 1)] is hit by a message
    at [A] exactly when its first argument has the numeric value one: the
    integer [1], the float [1.0] and [True] hit it; a string, [None], a
    blob, or a number with another value does not. *)
Theorem C4_match_by_key_equality (w : world) (A : pyval) (out : rule_out) :
  Dict.wf (VALUE_MAP w) ->
  In (PTuple [A; PInt 1], out) (VALUE_MAP w) ->
  (forall v rest,
     mapped_hit w A (v :: rest) (PTuple [A; PInt 1], out)
     <-> py_number v = Some (NumFin 1 0))
  /\ (forall rest,
        mapped_hit w A (PFloat (float_of_Z 1) :: rest)
          (PTuple [A; PInt 1], out)
        /\ mapped_hit w A (PBool true :: rest) (PTuple [A; PInt 1], out))
  /\ (forall s b rest,
        ~ mapped_hit w A (PStr s :: rest) (PTuple [A; PInt 1], out)
        /\ ~ mapped_hit w A (PBytes b :: rest) (PTuple [A; PInt 1], out)
        /\ ~ mapped_hit w A (PNone :: rest) (PTuple [A; PInt 1], out))
  /\ (forall z rest,
        z <> 1 ->
        ~ mapped_hit w A (PInt z :: rest) (PTuple [A; PInt 1], out)).
Proof.
  intros Hwf Hin.
  assert (Hiff : forall v rest,
             mapped_hit w A (v :: rest) (PTuple [A; PInt 1], out)
             <-> py_number v = Some (NumFin 1 0)).
  { intros v rest. split.
    - intro Hm. apply mapped_hit_same_key in Hm.
      unfold key_of, first_arg in Hm. rewrite same_key_pair in Hm.
      apply andb_true_iff in Hm as [_ Hm]. now apply same_key_one.
    - intro Hv.
      pose proof (wf_In_hashable _ _ _ Hwf Hin) as Hh.
      rewrite hashable_pair in Hh. apply andb_true_iff in Hh as [HA _].
      apply mapped_hit_In; try assumption.
      + rewrite same_key_pair, (same_key_refl A HA).
        now apply same_key_one.
      + destruct v as [ | | |[]| | | | | ]; try discriminate; reflexivity. }
  split; [exact Hiff|]. split; [|split].
  - intro rest. split; now apply Hiff.
  - intros s b rest. repeat split; intro Hm; apply Hiff in Hm;
      discriminate.
  - intros z rest Hz Hm. apply Hiff in Hm. simpl in Hm.
    injection Hm as Hm. now apply dyadic_int_one in Hm.
Qed.

Lemma C4_match_by_key_equality_witness :
  mapped_hit (running (config false [btn_rule])) (PStr "/btn/1")
    [PFloat (float_of_Z 1)]
    (PTuple [PStr "/btn/1"; PInt 1], (PStr "/light/1", PList [PInt 255]))
  /\ ~ mapped_hit (running (config false [btn_rule])) (PStr "/btn/1")
         [PStr "1"]
         (PTuple [PStr "/btn/1"; PInt 1],
          (PStr "/light/1", PList [PInt 255])).
Proof.
  pose proof (C4_match_by_key_equality (running (config false [btn_rule]))
                (PStr "/btn/1") (PStr "/light/1", PList [PInt 255])) as H.
  simpl in H.
  destruct H as (_ & H1 & H2 & _).
  - repeat split. intros k v [].
  - left. reflexivity.
  - split; [apply (H1 [])|apply (H2 "1" [] [])].
Defined.

(** The rule of the specification's example, stored under the integer
    [1], is hit by the message whose first argument is the float [1.0]:
    the rule's output is sent although unmapped messages are dropped. *)
Lemma C4_counterexample :
  let w := running (config false [btn_rule]) in
  let hit := (PTuple [PStr "/btn/1"; PInt 1],
              (PStr "/light/1", PList [PInt 255])) in
  VALUE_MAP w = [hit]
  /\ FORWARD_UNMAPPED w = false
  /\ PFloat (float_of_Z 1) <> PInt 1
  /\ mapped_hit w (PStr "/btn/1") [PFloat (float_of_Z 1)] hit
  /\ osc_handler (Ret tt) (PStr "/btn/1") [PFloat (float_of_Z 1)] w =
       (Ret tt,
        logged w
          [LogGui (RecvLine (PStr "/btn/1") [PFloat (float_of_Z 1)]);
           LogGui (SendLine (PStr "/light/1") [PInt 255]);
           SendMessage localhost (PStr "/light/1") [PInt 255]]).
Proof. repeat split. discriminate. Qed.

(* ================================================================== *)
(** ** Building the table *)
(* ================================================================== *)

Lemma missing_member (e : list (string * pyval)) (name : string) :
  assoc e name = None -> missing_or_empty e name.
Proof.
  intro H. unfold missing_or_empty, entry_field, member. now rewrite H.
Qed.

Lemma empty_member (e : list (string * pyval)) (name : string) :
  assoc e name = Some (PStr "") \/ assoc e name = Some PNone ->
  missing_or_empty e name.
Proof.
  unfold missing_or_empty, entry_field, member. now intros [-> | ->].
Qed.

Lemma for_mappings_object (e : list (string * pyval)) (rest : list pyval)
    (acc : rule_table) :
  for_mappings (PDict e :: rest) acc =
    if kept e
    then let! d := Dict.setitem acc (entry_key e) (entry_out e) in
         for_mappings rest d
    else for_mappings rest acc.
Proof.
  simpl. unfold kept, entry_key, entry_out, entry_field, member.
  destruct (truthy _), (truthy _); reflexivity.
Qed.

Lemma for_mappings_not_object (m : pyval) (rest : list pyval)
    (acc : rule_table) :
  (forall e, m <> PDict e) ->
  for_mappings (m :: rest) acc = Raise AttributeError.
Proof.
  intro H. destruct m; try reflexivity. now destruct (H d).
Qed.

Lemma for_mappings_app (ms ms' : list pyval) (acc : rule_table) :
  for_mappings (ms ++ ms') acc =
    let! d := for_mappings ms acc in for_mappings ms' d.
Proof.
  revert acc. induction ms as [|m ms IH]; intro acc; [reflexivity|].
  destruct m as [ | | | | | | | |e]; try reflexivity.
  rewrite <- app_comm_cons, !for_mappings_object.
  destruct (kept e); [|apply IH].
  destruct (Dict.setitem acc (entry_key e) (entry_out e)) as [d|x];
    [apply IH|reflexivity].
Qed.

(** The loop completes exactly on the entries [entry_ok] describes. *)
Lemma for_mappings_completes (ms : list pyval) (acc : rule_table) :
  forallb entry_ok ms = true -> exists d, for_mappings ms acc = Ret d.
Proof.
  revert acc. induction ms as [|m ms IH]; intros acc H.
  - now exists acc.
  - simpl in H. apply andb_true_iff in H as [Hm Hms].
    destruct m as [ | | | | | | | |e]; try discriminate.
    rewrite for_mappings_object. unfold entry_ok in Hm.
    destruct (kept e); [|now apply IH].
    change (hashable (entry_key e) = true) in Hm.
    unfold Dict.setitem. rewrite Hm. now apply IH.
Qed.

Lemma for_mappings_raises (ms : list pyval) (acc : rule_table) :
  forallb entry_ok ms = false -> exists x, for_mappings ms acc = Raise x.
Proof.
  revert acc. induction ms as [|m ms IH]; intros acc H; [discriminate|].
  simpl in H. apply andb_false_iff in H.
  destruct m as [ | | | | | | | |e];
    try (now exists AttributeError).
  rewrite for_mappings_object.
  destruct (entry_ok (PDict e)) eqn:Em.
  - destruct H as [H|H]; [discriminate|].
    destruct (kept e); [|now apply IH].
    unfold Dict.setitem. destruct (hashable (entry_key e)); simpl;
      [now apply IH | now exists TypeError].
  - unfold entry_ok in Em. apply orb_false_iff in Em as [Ek Eh].
    apply negb_false_iff in Ek. rewrite Ek.
    unfold Dict.setitem. rewrite Eh. now exists TypeError.
Qed.

Lemma for_mappings_wf (ms : list pyval) (acc d : rule_table) :
  Dict.wf acc -> for_mappings ms acc = Ret d -> Dict.wf d.
Proof.
  revert acc. induction ms as [|m ms IH]; intros acc Hwf H.
  - now injection H as <-.
  - destruct m as [ | | | | | | | |e]; try discriminate.
    rewrite for_mappings_object in H.
    destruct (kept e); [|now apply (IH acc)].
    unfold Dict.setitem in H.
    destruct (hashable (entry_key e)) eqn:Eh; [|discriminate].
    simpl in H. apply (IH _ (wf_update _ _ _ Hwf Eh) H).
Qed.

(** Entries stored under other keys leave what a probe finds alone. *)
Lemma for_mappings_find_other (ms : list pyval) (acc d : rule_table)
    (k : pyval) :
  for_mappings ms acc = Ret d ->
  (forall e, In (PDict e) ms -> kept e = true ->
             same_key (entry_key e) k = false) ->
  Dict.find d k = Dict.find acc k.
Proof.
  revert acc. induction ms as [|m ms IH]; intros acc H Hother.
  - now injection H as <-.
  - destruct m as [ | | | | | | | |e]; try discriminate.
    rewrite for_mappings_object in H.
    assert (Hms : forall e0, In (PDict e0) ms -> kept e0 = true ->
                             same_key (entry_key e0) k = false).
    { intros e0 H0. apply Hother. now right. }
    destruct (kept e) eqn:Ek; [|now apply IH].
    unfold Dict.setitem in H.
    destruct (hashable (entry_key e)); [|discriminate].
    simpl in H. rewrite (IH _ H Hms).
    apply find_update_other. apply Hother; [now left | assumption].
Qed.

(** [load_config] on a decoded object, in one step: the flag is set first,
    then the table is built and, when the loop completes, installed. *)
Lemma load_config_object (d : list (string * pyval)) (w : world) :
  load_config (Decoded (PDict d)) w =
    let flag := truthy (member d "forward_unmapped" (PBool false)) in
    match (let! items := py_iter (member d "mappings" (PList [])) in
           for_mappings items []) with
    | Ret t =>
        (Ret tt,
         {| VALUE_MAP := t;
            FORWARD_UNMAPPED := flag;
            osc_client := osc_client w;
            trace := trace w ++ [LogGui ConfigLoaded;
                                 LogGui (LoadedMappings (List.length t) flag)]
         |})
    | Raise x =>
        (Raise x,
         {| VALUE_MAP := VALUE_MAP w;
            FORWARD_UNMAPPED := flag;
            osc_client := osc_client w;
            trace := trace w ++ [LogGui ConfigLoaded] |})
    end.
Proof.
  unfold load_config, bind, read, lift, ret, log_gui, emit,
    set_FORWARD_UNMAPPED, set_VALUE_MAP, py_get.
  fold (member d "forward_unmapped" (PBool false)).
  fold (member d "mappings" (PList [])).
  cbv zeta. cbn [fst snd VALUE_MAP FORWARD_UNMAPPED osc_client trace].
  destruct (py_iter (member d "mappings" (PList []))) as [items|x];
    [|reflexivity].
  cbn [obind].
  destruct (for_mappings items []) as [t|x]; [|reflexivity].
  cbn [VALUE_MAP FORWARD_UNMAPPED osc_client trace].
  now rewrite <- app_assoc.
Qed.

Lemma load_config_not_object (data : pyval) (w : world) :
  (forall d, data <> PDict d) ->
  load_config (Decoded data) w =
    (Raise AttributeError, logged w [LogGui ConfigLoaded]).
Proof.
  intro H. destruct data; try reflexivity. now destruct (H d).
Qed.

(** Whatever [load_config] meets, [VALUE_MAP] stays a dictionary. *)
Lemma load_config_wf (src : config_source) (w : world) :
  Dict.wf (VALUE_MAP w) -> Dict.wf (VALUE_MAP (snd (load_config src w))).
Proof.
  intro Hwf. destruct src as [[|]| |data]; try exact Hwf.
  - exact I.
  - destruct data as [ | | | | | | | |d]; try exact Hwf.
    rewrite load_config_object. cbv zeta.
    destruct (py_iter (member d "mappings" (PList []))) as [items|x];
      [|exact Hwf].
    cbn [obind].
    destruct (for_mappings items []) as [t|x] eqn:E; [|exact Hwf].
    exact (for_mappings_wf items [] t I E).
Qed.

(** C5 (unreadable configuration), as the code has it.  When
    [config.json] cannot be read or decoded, [load_config] writes the error
    to the log and returns without raising and without touching the
    globals; at startup these are the empty table of line 32 and the
    [FORWARD_UNMAPPED = True] of line 33. *)
Theorem C5_unreadable_config (w : world) :
  load_config Unreadable w = (Ret tt, logged w [LogGui ErrorReadingConfig])
  /\ VALUE_MAP (snd (load_config Unreadable initial_world)) = []
  /\ FORWARD_UNMAPPED (snd (load_config Unreadable initial_world)) = true.
Proof. repeat split. Qed.

(** After an unreadable configuration at startup the flag is not false:
    the started router forwards a message it has no rule for. *)
Lemma C5_counterexample :
  let w := snd ((load_config Unreadable ;;
                 start_osc_server "192.168.0.2" 7000 "127.0.0.1" 7000 true)
                  initial_world) in
  FORWARD_UNMAPPED (snd (load_config Unreadable initial_world)) <> false
  /\ VALUE_MAP w = []
  /\ FORWARD_UNMAPPED w = true
  /\ osc_handler (Ret tt) (PStr "/btn/2") [PInt 1] w =
       (Ret tt,
        logged w
          [LogGui (RecvLine (PStr "/btn/2") [PInt 1]);
           LogGui (SendLine (PStr "/btn/2") [PInt 1]);
           SendMessage localhost (PStr "/btn/2") [PInt 1]]).
Proof. repeat split. discriminate. Qed.

(** C6 (construction completes), as the code has it.  On a decoded
    configuration that is an object whose ["mappings"], when present, is a
    list of objects each of which is skipped or has a hashable
    [(in_address, in_value)], [load_config] does not raise: it installs a
    table, at worst the empty one, which is a dictionary. *)
Theorem C6_construction_completes (data : pyval) (w : world) :
  config_ok data = true ->
  exists t flag,
    load_config (Decoded data) w =
      (Ret tt,
       {| VALUE_MAP := t;
          FORWARD_UNMAPPED := flag;
          osc_client := osc_client w;
          trace := trace w ++ [LogGui ConfigLoaded;
                               LogGui (LoadedMappings (List.length t) flag)]
       |})
    /\ Dict.wf t.
Proof.
  intro H. destruct data as [ | | | | | | | |d]; try discriminate.
  unfold config_ok in H.
  rewrite load_config_object. cbv zeta.
  destruct (py_iter (member d "mappings" (PList []))) as [items|x];
    [|discriminate].
  destruct (for_mappings_completes items [] H) as [t Ht].
  cbn [obind]. rewrite Ht.
  exists t, (truthy (member d "forward_unmapped" (PBool false))).
  split; [reflexivity|]. exact (for_mappings_wf items [] t I Ht).
Qed.

Lemma C6_construction_completes_witness :
  exists t flag,
    load_config (Decoded (config true [btn_rule; PDict []; absent_rule]))
      initial_world =
      (Ret tt,
       {| VALUE_MAP := t;
          FORWARD_UNMAPPED := flag;
          osc_client := None;
          trace := [LogGui ConfigLoaded;
                    LogGui (LoadedMappings (List.length t) flag)] |})
    /\ Dict.wf t.
Proof.
  apply (C6_construction_completes
           (config true [btn_rule; PDict []; absent_rule]) initial_world).
  reflexivity.
Defined.

(** ... and on every other decoded value it raises. *)
Lemma load_config_raises (data : pyval) (w : world) :
  config_ok data = false ->
  exists x, fst (load_config (Decoded data) w) = Raise x.
Proof.
  intro H. destruct data as [ | | | | | | | |d];
    try (now exists AttributeError).
  unfold config_ok in H. rewrite load_config_object. cbv zeta.
  destruct (py_iter (member d "mappings" (PList []))) as [items|x].
  - destruct (for_mappings_raises items [] H) as [x Hx].
    cbn [obind]. rewrite Hx. now exists x.
  - now exists x.
Qed.

(** Decoded values [load_config] raises on: a top-level array, a
    ["mappings"] that is a number, an entry that is a string, and an
    entry whose [in_value] is an array. *)
Lemma C6_counterexample :
  fst (load_config (Decoded (PList [])) initial_world) = Raise AttributeError
  /\ fst (load_config (Decoded (PDict [("mappings", PInt 5)])) initial_world)
     = Raise TypeError
  /\ fst (load_config (Decoded (config true [PStr "/btn/1"])) initial_world)
     = Raise AttributeError
  /\ fst (load_config
            (Decoded (config true
                        [rule (PStr "/btn/1") (PList [PInt 1])
                           (PStr "/light/1") (PList [PInt 255])]))
            initial_world)
     = Raise TypeError.
Proof. repeat split. Qed.

(** C7 (last write wins).  When the configuration is one the construction
    gets through and its ["mappings"] hold two kept entries with the same
    [(in_address, in_value)], no kept entry after the second being stored
    under that key, then in the table [load_config] installs the key gives
    the second entry's [(out_address, out_args)], and whatever is stored
    under that key has this output: nothing of the first entry's output is
    retained. *)
Theorem C7_last_write_wins (d : list (string * pyval))
    (before between after : list pyval) (e1 e2 : list (string * pyval))
    (w : world) :
  config_ok (PDict d) = true ->
  member d "mappings" (PList []) =
    PList (before ++ PDict e1 :: between ++ PDict e2 :: after) ->
  kept e1 = true ->
  kept e2 = true ->
  entry_key e1 = entry_key e2 ->
  (forall e, In (PDict e) after -> kept e = true ->
             same_key (entry_key e) (entry_key e2) = false) ->
  exists w',
    load_config (Decoded (PDict d)) w = (Ret tt, w')
    /\ Dict.getitem (VALUE_MAP w') (entry_key e1) = Ret (entry_out e2)
    /\ (forall k out,
          In (k, out) (VALUE_MAP w') ->
          same_key k (entry_key e1) = true ->
          out = entry_out e2).
Proof.
  intros Hok Hms _ Hk2 Hkey Hafter. rewrite Hkey.
  unfold config_ok in Hok. rewrite Hms in Hok. cbn [py_iter] in Hok.
  rewrite load_config_object, Hms. cbv zeta. cbn [py_iter obind].
  set (items := before ++ PDict e1 :: between ++ PDict e2 :: after) in *.
  destruct (for_mappings_completes items [] Hok) as [t Ht]. rewrite Ht.
  eexists. split; [reflexivity|]. cbn [VALUE_MAP].
  pose proof (for_mappings_wf items [] t I Ht) as Hwf.
  assert (Hsplit : items = (before ++ PDict e1 :: between)
                             ++ PDict e2 :: after).
  { unfold items. now rewrite <- app_assoc, <- app_comm_cons. }
  rewrite Hsplit, for_mappings_app in Ht.
  destruct (for_mappings (before ++ PDict e1 :: between) []) as [d1|x];
    [|discriminate].
  cbn [obind] in Ht. rewrite for_mappings_object, Hk2 in Ht.
  unfold Dict.setitem in Ht.
  destruct (hashable (entry_key e2)) eqn:Eh; [|discriminate].
  cbn [obind] in Ht.
  pose proof (for_mappings_find_other _ _ _ (entry_key e2) Ht Hafter) as Hf.
  destruct (find_update_same d1 (entry_key e2) (entry_out e2)
              (entry_key e2) (same_key_refl _ Eh)) as (k0 & Hk0 & _).
  rewrite Hk0 in Hf.
  split.
  - unfold Dict.getitem. now rewrite Eh, Hf.
  - intros k out Hin Hsame.
    rewrite (find_In_same _ _ _ _ Hwf Hin Hsame) in Hf. congruence.
Qed.

Lemma C7_last_write_wins_witness :
  exists w',
    load_config
      (Decoded (config true
                  [btn_rule;
                   rule (PStr "/btn/1") (PInt 1) (PStr "/light/2")
                     (PList [PInt 0]);
                   absent_rule]))
      initial_world = (Ret tt, w')
    /\ Dict.getitem (VALUE_MAP w') (PTuple [PStr "/btn/1"; PInt 1]) =
         Ret (PStr "/light/2", PList [PInt 0])
    /\ (forall k out,
          In (k, out) (VALUE_MAP w') ->
          same_key k (PTuple [PStr "/btn/1"; PInt 1]) = true ->
          out = (PStr "/light/2", PList [PInt 0])).
Proof.
  apply (C7_last_write_wins
           [("forward_unmapped", PBool true);
            ("mappings",
             PList [btn_rule;
                    rule (PStr "/btn/1") (PInt 1) (PStr "/light/2")
                      (PList [PInt 0]);
                    absent_rule])]
           [] []
           [absent_rule]
           [("in_address", PStr "/btn/1"); ("in_value", PInt 1);
            ("out_address", PStr "/light/1"); ("out_args", PList [PInt 255])]
           [("in_address", PStr "/btn/1"); ("in_value", PInt 1);
            ("out_address", PStr "/light/2"); ("out_args", PList [PInt 0])]
           initial_world); try reflexivity.
  intros e [H|[]] _. injection H as <-. reflexivity.
Defined.

(** C8 (malformed entries are skipped), as the code has it.  An entry that
    is an object and whose [in_address] or [out_address] is missing or
    empty changes nothing: [load_config] on a configuration that holds it
    runs as on the configuration without it, with the same outcome, the
    same table, the same flag and the same log; it does not raise on
    account of the entry, and no lookup in the built table returns
    anything that comes from it.  An entry that is not an object ([null],
    a string, a number, an array) is not skipped: when the entries before
    it get through, [m.get] raises [AttributeError] on it, the load stops
    there, and no table is installed. *)
Theorem C8_malformed_entries_skipped (d d' : list (string * pyval))
    (before after : list pyval) (m : pyval) (w : world) :
  member d "forward_unmapped" (PBool false) =
    member d' "forward_unmapped" (PBool false) ->
  member d "mappings" (PList []) = PList (before ++ m :: after) ->
  member d' "mappings" (PList []) = PList (before ++ after) ->
  (forall e,
     m = PDict e ->
     missing_or_empty e "in_address" \/ missing_or_empty e "out_address" ->
     load_config (Decoded (PDict d)) w = load_config (Decoded (PDict d')) w)
  /\ ((forall e, m <> PDict e) ->
      forall t,
        for_mappings before [] = Ret t ->
        load_config (Decoded (PDict d)) w =
          (Raise AttributeError,
           {| VALUE_MAP := VALUE_MAP w;
              FORWARD_UNMAPPED :=
                truthy (member d "forward_unmapped" (PBool false));
              osc_client := osc_client w;
              trace := trace w ++ [LogGui ConfigLoaded] |})).
Proof.
  intros Hflag Hms Hms'. split.
  - intros e -> Hbad.
    assert (Hk : kept e = false).
    { unfold kept. unfold missing_or_empty in Hbad.
      destruct Hbad as [-> | ->]; [reflexivity | apply andb_false_r]. }
    rewrite !load_config_object, Hflag, Hms, Hms'. cbv zeta.
    cbn [py_iter obind].
    rewrite !for_mappings_app.
    destruct (for_mappings before []) as [d1|x]; [|reflexivity].
    cbn [obind]. now rewrite for_mappings_object, Hk.
  - intros Hm t Ht.
    rewrite load_config_object, Hms. cbv zeta. cbn [py_iter obind].
    rewrite for_mappings_app, Ht. cbn [obind].
    now rewrite (for_mappings_not_object m after t Hm).
Qed.

Lemma C8_malformed_entries_skipped_witness :
  load_config
    (Decoded (config true
                [btn_rule;
                 PDict [("in_address", PStr "/btn/2"); ("in_value", PInt 1)];
                 absent_rule]))
    initial_world =
  load_config (Decoded (config true [btn_rule; absent_rule])) initial_world.
Proof.
  refine (proj1
    (C8_malformed_entries_skipped
       [("forward_unmapped", PBool true);
        ("mappings",
         PList [btn_rule;
                PDict [("in_address", PStr "/btn/2");
                       ("in_value", PInt 1)];
                absent_rule])]
       [("forward_unmapped", PBool true);
        ("mappings", PList [btn_rule; absent_rule])]
       [btn_rule] [absent_rule]
       (PDict [("in_address", PStr "/btn/2"); ("in_value", PInt 1)])
       initial_world _ _ _)
    [("in_address", PStr "/btn/2"); ("in_value", PInt 1)] _ _);
    try reflexivity.
  right. reflexivity.
Defined.

(** Entries without an [in_address] that are not discarded: with a
    [null] between two rules the load raises [AttributeError] and installs
    no table, not even the rule that came before, whereas the two rules
    alone load; an entry that is the empty string, or an empty array,
    raises as well. *)
Lemma C8_counterexample :
  let cfg := config true [btn_rule; PNone; absent_rule] in
  fst (load_config (Decoded cfg) initial_world) = Raise AttributeError
  /\ VALUE_MAP (snd (load_config (Decoded cfg) initial_world)) = []
  /\ fst (load_config (Decoded (config true [btn_rule; absent_rule]))
            initial_world) = Ret tt
  /\ fst (load_config (Decoded (config true [PStr ""])) initial_world)
     = Raise AttributeError
  /\ fst (load_config (Decoded (config true [PList []])) initial_world)
     = Raise AttributeError.
Proof. cbv zeta. repeat split. Qed.

(** C10 (the flag of a configuration without the key).  On a decoded
    object that has no ["forward_unmapped"] member, [load_config] leaves
    [FORWARD_UNMAPPED] false, whether or not the rest of the construction
    completes; the default configuration written when there is no file
    holds [true], and loading it leaves the flag true. *)
Theorem C10_missing_flag_is_false (d : list (string * pyval)) (w : world) :
  assoc d "forward_unmapped" = None ->
  FORWARD_UNMAPPED (snd (load_config (Decoded (PDict d)) w)) = false
  /\ py_get default "forward_unmapped" (PBool false) = Ret (PBool true)
  /\ FORWARD_UNMAPPED (snd (load_config (NoFile true) w)) = true.
Proof.
  intro H. split; [|split; reflexivity].
  assert (Hm : member d "forward_unmapped" (PBool false) = PBool false)
    by (unfold member; now rewrite H).
  rewrite load_config_object, Hm. cbv zeta.
  destruct (let! items := py_iter (member d "mappings" (PList [])) in
            for_mappings items []); reflexivity.
Qed.

Lemma C10_missing_flag_is_false_witness :
  FORWARD_UNMAPPED
    (snd (load_config (Decoded (PDict [("mappings", PList [btn_rule])]))
            initial_world)) = false
  /\ py_get default "forward_unmapped" (PBool false) = Ret (PBool true)
  /\ FORWARD_UNMAPPED (snd (load_config (NoFile true) initial_world)) = true.
Proof.
  apply (C10_missing_flag_is_false [("mappings", PList [btn_rule])]
           initial_world).
  reflexivity.
Defined.

(* ================================================================== *)
(** ** Further properties of [load_config] *)
(* ================================================================== *)

(** X1 (a failed construction installs nothing).  When [load_config]
    raises on a decoded configuration, [VALUE_MAP] is the table it was
    before: no rule of the file is installed, not even those that came
    before the offending entry.  [FORWARD_UNMAPPED] has by then been
    replaced by the file's flag when the configuration is an object
    (line 113 runs before the loop) and is untouched otherwise; the only
    line logged is the one of the successful read. *)
Theorem X1_failed_load_keeps_table (data : pyval) (w : world) (x : exn) :
  fst (load_config (Decoded data) w) = Raise x ->
  VALUE_MAP (snd (load_config (Decoded data) w)) = VALUE_MAP w
  /\ osc_client (snd (load_config (Decoded data) w)) = osc_client w
  /\ (forall d,
        data = PDict d ->
        FORWARD_UNMAPPED (snd (load_config (Decoded data) w)) =
          truthy (member d "forward_unmapped" (PBool false)))
  /\ ((forall d, data <> PDict d) ->
      FORWARD_UNMAPPED (snd (load_config (Decoded data) w)) =
        FORWARD_UNMAPPED w)
  /\ new_events w (snd (load_config (Decoded data) w)) =
       [LogGui ConfigLoaded].
Proof.
  intro H.
  assert (Hobj : (exists d, data = PDict d) \/ (forall d, data <> PDict d)).
  { destruct data; try (right; intros d0 H0; discriminate).
    left. now eexists. }
  destruct Hobj as [[d ->]|Hno].
  - rewrite load_config_object in *. cbv zeta in *.
    destruct (let! items := py_iter (member d "mappings" (PList [])) in
              for_mappings items []) as [t|y]; [discriminate|].
    cbn [snd VALUE_MAP osc_client FORWARD_UNMAPPED].
    repeat split.
    + intros d0 H0. now injection H0 as <-.
    + intro H0. now destruct (H0 d).
    + apply skipn_length_app.
  - rewrite (load_config_not_object data w Hno). cbn [snd].
    repeat split.
    + intros d ->. now destruct (Hno d).
    + apply new_events_logged.
Qed.

Lemma X1_failed_load_keeps_table_witness :
  VALUE_MAP
    (snd (load_config (Decoded (config true [btn_rule; PStr "/btn/2"]))
            (running (config false [absent_rule])))) =
    VALUE_MAP (running (config false [absent_rule]))
  /\ FORWARD_UNMAPPED
       (snd (load_config (Decoded (config true [btn_rule; PStr "/btn/2"]))
               (running (config false [absent_rule])))) = true.
Proof.
  destruct (X1_failed_load_keeps_table
              (config true [btn_rule; PStr "/btn/2"])
              (running (config false [absent_rule])) AttributeError
              eq_refl) as (H1 & _ & H2 & _).
  split; [exact H1|]. exact (H2 _ eq_refl).
Defined.

Lemma for_mappings_last_match (ms : list pyval) (acc d : rule_table)
    (k : pyval) :
  for_mappings ms acc = Ret d ->
  option_map snd (Dict.find d k) =
    last_match ms k (option_map snd (Dict.find acc k)).
Proof.
  revert acc. induction ms as [|m ms IH]; intros acc H.
  - now injection H as <-.
  - destruct m as [ | | | | | | | |e]; try discriminate.
    rewrite for_mappings_object in H. cbn [last_match].
    destruct (kept e); cbn [andb]; [|now apply IH].
    unfold Dict.setitem in H.
    destruct (hashable (entry_key e)); [|discriminate].
    cbn [obind] in H. rewrite (IH _ H).
    destruct (same_key (entry_key e) k) eqn:E.
    + destruct (find_update_same acc (entry_key e) (entry_out e) k E)
        as (k0 & -> & _). reflexivity.
    + now rewrite (find_update_other acc (entry_key e) (entry_out e) k E).
Qed.

(** X2 (what a lookup in the built table returns).  After [load_config]
    has got through a configuration, a hashable probe is in [VALUE_MAP]
    exactly when some entry that line 124 lets through is stored under
    the probe's key, and indexing the table with the probe gives the
    output of the last such entry, [KeyError] when there is none. *)
Theorem X2_lookup_after_load (d : list (string * pyval))
    (items : list pyval) (w : world) (k : pyval) :
  config_ok (PDict d) = true ->
  py_iter (member d "mappings" (PList [])) = Ret items ->
  hashable k = true ->
  fst (load_config (Decoded (PDict d)) w) = Ret tt
  /\ Dict.contains (VALUE_MAP (snd (load_config (Decoded (PDict d)) w))) k =
       Ret (match last_match items k None with
            | Some _ => true
            | None => false
            end)
  /\ Dict.getitem (VALUE_MAP (snd (load_config (Decoded (PDict d)) w))) k =
       match last_match items k None with
       | Some out => Ret out
       | None => Raise KeyError
       end.
Proof.
  intros Hok Hit Hk. unfold config_ok in Hok. rewrite Hit in Hok.
  rewrite load_config_object, Hit. cbv zeta. cbn [obind].
  destruct (for_mappings_completes items [] Hok) as [t Ht]. rewrite Ht.
  cbn [fst snd VALUE_MAP].
  pose proof (for_mappings_last_match items [] t k Ht) as Hl.
  cbn [Dict.find option_map] in Hl. rewrite <- Hl.
  unfold Dict.contains, Dict.getitem. rewrite Hk.
  destruct (Dict.find t k) as [[k0 out]|]; repeat split.
Qed.

Lemma X2_lookup_after_load_witness :
  Dict.getitem
    (VALUE_MAP
       (snd (load_config
               (Decoded (config true
                           [btn_rule;
                            rule (PStr "/btn/1") (PFloat (float_of_Z 1))
                              (PStr "/light/2") PNone;
                            PDict [("in_address", PStr "/btn/1")]]))
               initial_world)))
    (PTuple [PStr "/btn/1"; PBool true]) = Ret (PStr "/light/2", PNone).
Proof.
  exact (proj2 (proj2
    (X2_lookup_after_load
       [("forward_unmapped", PBool true);
        ("mappings",
         PList [btn_rule;
                rule (PStr "/btn/1") (PFloat (float_of_Z 1))
                  (PStr "/light/2") PNone;
                PDict [("in_address", PStr "/btn/1")]])]
       [btn_rule;
        rule (PStr "/btn/1") (PFloat (float_of_Z 1)) (PStr "/light/2") PNone;
        PDict [("in_address", PStr "/btn/1")]]
       initial_world (PTuple [PStr "/btn/1"; PBool true])
       eq_refl eq_refl eq_refl))).
Defined.

Lemma update_shape (d : rule_table) (k : pyval) (out : rule_out) :
  Forall rule_shape d -> rule_shape (k, out) ->
  Forall rule_shape (Dict.update d k out).
Proof.
  intros Hd [Hk Hout].
  induction d as [|[k0 out0] r IH]; simpl.
  - constructor; [now split | constructor].
  - inversion Hd as [|? ? [Hk0 _] Hr]; subst.
    destruct (same_key k0 k); constructor; try assumption.
    + now split.
    + now inversion Hd.
    + now apply IH.
Qed.

Lemma update_length (d : rule_table) (k : pyval) (out : rule_out) :
  (List.length (Dict.update d k out) <= S (List.length d))%nat.
Proof.
  induction d as [|[k0 out0] r IH]; simpl; [lia|].
  destruct (same_key k0 k); simpl; lia.
Qed.

Lemma kept_shape (e : list (string * pyval)) :
  kept e = true -> rule_shape (entry_key e, entry_out e).
Proof.
  unfold kept. intro H. apply andb_true_iff in H as [Hi Ho].
  split; [|exact Ho]. now eexists _, _.
Qed.

Lemma for_mappings_shape (ms : list pyval) (acc d : rule_table) :
  Forall rule_shape acc -> for_mappings ms acc = Ret d ->
  Forall rule_shape d.
Proof.
  revert acc. induction ms as [|m ms IH]; intros acc Hacc H.
  - now injection H as <-.
  - destruct m as [ | | | | | | | |e]; try discriminate.
    rewrite for_mappings_object in H.
    destruct (kept e) eqn:Ek; [|now apply (IH acc)].
    unfold Dict.setitem in H.
    destruct (hashable (entry_key e)); [|discriminate].
    cbn [obind] in H. apply (IH _ (update_shape _ _ _ Hacc (kept_shape _ Ek)) H).
Qed.

Lemma for_mappings_length (ms : list pyval) (acc d : rule_table) :
  for_mappings ms acc = Ret d ->
  (List.length d <= List.length acc + count_kept ms)%nat.
Proof.
  revert acc. induction ms as [|m ms IH]; intros acc H.
  - injection H as <-. simpl. lia.
  - destruct m as [ | | | | | | | |e]; try discriminate.
    rewrite for_mappings_object in H. cbn [count_kept].
    destruct (kept e); [|apply IH in H; lia].
    unfold Dict.setitem in H.
    destruct (hashable (entry_key e)); [|discriminate].
    cbn [obind] in H. apply IH in H.
    pose proof (update_length acc (entry_key e) (entry_out e)). lia.
Qed.

Lemma count_kept_length (ms : list pyval) :
  (count_kept ms <= List.length ms)%nat.
Proof.
  induction ms as [|m ms IH]; simpl; [lia|].
  destruct m as [ | | | | | | | |e]; try lia.
  destruct (kept e); lia.
Qed.

(** X3 (what the built table holds).  After [load_config] has got through
    a configuration, [VALUE_MAP] is a dictionary every rule of which is
    stored under a pair with a non-empty address and has a non-empty
    output address; it has at most as many rules as the file has entries
    that line 124 lets through; and the number in the "Loaded ... mappings"
    line, the last line logged, is the number of rules in the table. *)
Theorem X3_built_table_invariants (d : list (string * pyval))
    (items : list pyval) (w : world) :
  config_ok (PDict d) = true ->
  py_iter (member d "mappings" (PList [])) = Ret items ->
  Dict.wf (VALUE_MAP (snd (load_config (Decoded (PDict d)) w)))
  /\ Forall rule_shape (VALUE_MAP (snd (load_config (Decoded (PDict d)) w)))
  /\ (List.length (VALUE_MAP (snd (load_config (Decoded (PDict d)) w)))
      <= count_kept items <= List.length items)%nat
  /\ new_events w (snd (load_config (Decoded (PDict d)) w)) =
       [LogGui ConfigLoaded;
        LogGui (LoadedMappings
                  (List.length
                     (VALUE_MAP (snd (load_config (Decoded (PDict d)) w))))
                  (FORWARD_UNMAPPED
                     (snd (load_config (Decoded (PDict d)) w))))].
Proof.
  intros Hok Hit. unfold config_ok in Hok. rewrite Hit in Hok.
  rewrite load_config_object, Hit. cbv zeta. cbn [obind].
  destruct (for_mappings_completes items [] Hok) as [t Ht]. rewrite Ht.
  cbn [snd VALUE_MAP FORWARD_UNMAPPED].
  split; [exact (for_mappings_wf items [] t I Ht)|].
  split; [exact (for_mappings_shape items [] t (Forall_nil _) Ht)|].
  split.
  - pose proof (for_mappings_length items [] t Ht) as Hl.
    pose proof (count_kept_length items). simpl in Hl. lia.
  - apply skipn_length_app.
Qed.

Lemma X3_built_table_invariants_witness :
  (List.length
     (VALUE_MAP
        (snd (load_config
                (Decoded (config true [btn_rule; PDict []; btn_rule]))
                initial_world)))
   <= count_kept [btn_rule; PDict []; btn_rule] <= 3)%nat.
Proof.
  exact (proj1 (proj2 (proj2
    (X3_built_table_invariants
       [("forward_unmapped", PBool true);
        ("mappings", PList [btn_rule; PDict []; btn_rule])]
       [btn_rule; PDict []; btn_rule] initial_world eq_refl eq_refl)))).
Defined.

(** X4 (how the flag is read).  When the decoded object has a
    ["forward_unmapped"] member, [FORWARD_UNMAPPED] becomes that member's
    truth value, whether or not the construction completes afterwards:
    true for every non-empty string (the string "false" included) and
    every non-zero integer, false for [null], [0], the empty string, the
    empty array and the empty object. *)
Theorem X4_flag_is_truth_value (d : list (string * pyval)) (v : pyval)
    (w : world) :
  assoc d "forward_unmapped" = Some v ->
  FORWARD_UNMAPPED (snd (load_config (Decoded (PDict d)) w)) = truthy v
  /\ (forall s, v = PStr s -> s <> "" -> truthy v = true)
  /\ (forall z, v = PInt z -> z <> 0 -> truthy v = true)
  /\ (v = PNone \/ v = PInt 0 \/ v = PStr "" \/ v = PList [] \/ v = PDict []
      -> truthy v = false).
Proof.
  intro H.
  assert (Hm : member d "forward_unmapped" (PBool false) = v)
    by (unfold member; now rewrite H).
  split; [|split; [|split]].
  - rewrite load_config_object, Hm. cbv zeta.
    destruct (let! items := py_iter (member d "mappings" (PList [])) in
              for_mappings items []); reflexivity.
  - intros s -> Hs. simpl. apply negb_true_iff.
    now apply String.eqb_neq.
  - intros z -> Hz. simpl. apply negb_true_iff. now apply Z.eqb_neq.
  - intros [-> | [-> | [-> | [-> | ->]]]]; reflexivity.
Qed.

Lemma X4_flag_is_truth_value_witness :
  FORWARD_UNMAPPED
    (snd (load_config
            (Decoded (PDict [("forward_unmapped", PStr "false")]))
            (running (config false [])))) = true.
Proof.
  destruct (X4_flag_is_truth_value
              [("forward_unmapped", PStr "false")] (PStr "false")
              (running (config false [])) eq_refl) as (H1 & H2 & _).
  rewrite H1. apply (H2 "false" eq_refl). discriminate.
Defined.

(* ================================================================== *)
(** ** Further properties of [osc_handler] *)
(* ================================================================== *)

(** X5 (a router without configuration forwards everything).  When there
    is no [config.json] (whether or not the default can be written) or
    the file cannot be read, the started router has no rule and forwards
    unmapped messages: every message whose first argument can be hashed
    is logged and passed to [send_message] as it came, for the target the
    server was started with; it goes out when [send_message] returns, and
    what [send_message] raises leaves the handler. *)
Theorem X5_unconfigured_router_is_transparent (src : config_source)
    (listen_ip : string) (listen_port : Z) (target_ip : string)
    (target_port : Z) (sent : outcome unit) (address : pyval)
    (args : list pyval) :
  (forall data, src <> Decoded data) ->
  hashable (key_of address args) = true ->
  VALUE_MAP (started src listen_ip listen_port target_ip target_port) = []
  /\ osc_handler sent address args
       (started src listen_ip listen_port target_ip target_port) =
       (sent,
        logged (started src listen_ip listen_port target_ip target_port)
          (LogGui (RecvLine address args)
           :: send_events sent (SimpleUDPClient target_ip target_port)
                address args)).
Proof.
  intros Hsrc Hh.
  assert (Hw : VALUE_MAP
                 (started src listen_ip listen_port target_ip target_port)
               = []
               /\ FORWARD_UNMAPPED
                    (started src listen_ip listen_port target_ip target_port)
                  = true
               /\ osc_client
                    (started src listen_ip listen_port target_ip target_port)
                  = Some (SimpleUDPClient target_ip target_port)).
  { destruct src as [[|]| |data]; [| | |now destruct (Hsrc data)];
      repeat split. }
  destruct Hw as (Ht & Hf & Hc). split; [exact Ht|].
  assert (Hn : Dict.find
                 (VALUE_MAP
                    (started src listen_ip listen_port target_ip target_port))
                 (key_of address args) = None) by now rewrite Ht.
  exact (proj2 (proj1 (osc_handler_missed sent address args _ Hh Hn) Hf)
           _ Hc).
Qed.

Lemma X5_unconfigured_router_is_transparent_witness :
  osc_handler (Ret tt) (PStr "/btn/1") [PFloat (FNaN 0); PStr "x"]
    (started Unreadable "192.168.0.2" 7000 "127.0.0.1" 9000) =
    (Ret tt,
     logged (started Unreadable "192.168.0.2" 7000 "127.0.0.1" 9000)
       [LogGui (RecvLine (PStr "/btn/1") [PFloat (FNaN 0); PStr "x"]);
        LogGui (SendLine (PStr "/btn/1") [PFloat (FNaN 0); PStr "x"]);
        SendMessage (SimpleUDPClient "127.0.0.1" 9000) (PStr "/btn/1")
          [PFloat (FNaN 0); PStr "x"]])
  /\ osc_handler (Raise OSError) (PStr "/btn/1") [PInt 1]
       (started Unreadable "192.168.0.2" 7000 "127.0.0.1" 0) =
     (Raise OSError,
      logged (started Unreadable "192.168.0.2" 7000 "127.0.0.1" 0)
        [LogGui (RecvLine (PStr "/btn/1") [PInt 1]);
         LogGui (SendLine (PStr "/btn/1") [PInt 1])]).
Proof.
  split.
  - apply (X5_unconfigured_router_is_transparent Unreadable
             "192.168.0.2" 7000 "127.0.0.1" 9000 (Ret tt) (PStr "/btn/1")
             [PFloat (FNaN 0); PStr "x"]).
    + discriminate.
    + reflexivity.
  - apply (X5_unconfigured_router_is_transparent Unreadable
             "192.168.0.2" 7000 "127.0.0.1" 0 (Raise OSError)
             (PStr "/btn/1") [PInt 1]).
    + discriminate.
    + reflexivity.
Defined.

(** What [send_osc] adds after the receipt line: the events, the outcome,
    and how many messages go out. *)
Lemma send_osc_after_receipt (sent : outcome unit) (w : world)
    (r : log_line) (address out_args : pyval) :
  exists es,
    send_osc sent address out_args (logged w [LogGui r]) =
      (fst (send_osc sent address out_args (logged w [LogGui r])),
       logged w (LogGui r :: es))
    /\ (fst (send_osc sent address out_args (logged w [LogGui r])) = Ret tt
        \/ fst (send_osc sent address out_args (logged w [LogGui r])) = sent)
    /\ (osc_client w = None ->
        fst (send_osc sent address out_args (logged w [LogGui r])) = Ret tt)
    /\ (forall x,
          fst (send_osc sent address out_args (logged w [LogGui r])) = Raise x
          -> sends es = [])
    /\ (List.length (sends es) <= 1)%nat
    /\ (osc_client w = None -> sends es = []).
Proof.
  rewrite send_osc_run. cbn [osc_client logged].
  destruct (osc_client w) as [c|]; rewrite logged_logged; cbn [fst];
    eexists; (split; [reflexivity|]).
  - split; [now right|]. split; [discriminate|].
    split; [now intros x ->|]. split; [|discriminate].
    destruct sent; simpl; lia.
  - split; [now left|]. split; [reflexivity|].
    split; [discriminate|]. split; [simpl; lia|reflexivity].
Qed.

(** X6 (what one call of the handler can do).  Whatever the table, the
    flag, the client, the message and the answer of [send_message]: the
    handler first logs the receipt.  When the key [(address, first_arg)]
    cannot be hashed it raises [TypeError] and nothing else happens.
    Otherwise it completes, or ends as the call of [send_message] ends:
    it raises only what [send_message] raises, and completes when there
    is no client.  It hands at most one message to the client, none when
    there is no client and none when it raises, and leaves the table, the
    flag and the client as they were. *)
Theorem X6_handler_safety (w : world) (sent : outcome unit)
    (address : pyval) (args : list pyval) :
  exists es,
    snd (osc_handler sent address args w) =
      logged w (LogGui (RecvLine address args) :: es)
    /\ (hashable (key_of address args) = false ->
        fst (osc_handler sent address args w) = Raise TypeError /\ es = [])
    /\ (hashable (key_of address args) = true ->
        fst (osc_handler sent address args w) = Ret tt
        \/ fst (osc_handler sent address args w) = sent)
    /\ (hashable (key_of address args) = true ->
        osc_client w = None ->
        fst (osc_handler sent address args w) = Ret tt)
    /\ (forall x,
          fst (osc_handler sent address args w) = Raise x -> sends es = [])
    /\ (List.length (sends es) <= 1)%nat
    /\ (osc_client w = None -> sends es = []).
Proof.
  rewrite osc_handler_run. cbv zeta.
  destruct (hashable (key_of address args)).
  - assert (S : forall a oargs,
               let c := send_osc sent a oargs
                          (logged w [LogGui (RecvLine address args)]) in
               exists es,
                 snd c = logged w (LogGui (RecvLine address args) :: es)
                 /\ (true = false -> fst c = Raise TypeError /\ es = [])
                 /\ (true = true -> fst c = Ret tt \/ fst c = sent)
                 /\ (true = true -> osc_client w = None -> fst c = Ret tt)
                 /\ (forall x, fst c = Raise x -> sends es = [])
                 /\ (List.length (sends es) <= 1)%nat
                 /\ (osc_client w = None -> sends es = [])).
    { intros a oargs. cbv zeta.
      destruct (send_osc_after_receipt sent w (RecvLine address args)
                  a oargs) as (es & E & H1 & H2 & H3 & H4 & H5).
      exists es. split; [now rewrite E|].
      split; [discriminate|]. split; [now intros _|].
      split; [now intros _|]. now split; [|split]. }
    destruct (Dict.find (VALUE_MAP w) (key_of address args))
      as [[k [out_address out_args]]|]; [apply S|].
    destruct (FORWARD_UNMAPPED w); [apply S|].
    rewrite logged_logged. eexists. cbn [fst snd].
    split; [reflexivity|]. split; [discriminate|].
    split; [now left|]. split; [reflexivity|].
    split; [discriminate|]. split; [simpl; lia|reflexivity].
  - exists []. cbn [fst snd]. split; [reflexivity|].
    split; [now split|]. split; [discriminate|]. split; [discriminate|].
    split; [reflexivity|]. split; [simpl; lia|reflexivity].
Qed.

Lemma osc_handler_depends (sent : outcome unit) (address : pyval)
    (args : list pyval) (w w' : world) :
  VALUE_MAP w = VALUE_MAP w' ->
  FORWARD_UNMAPPED w = FORWARD_UNMAPPED w' ->
  osc_client w = osc_client w' ->
  exists r es,
    osc_handler sent address args w = (r, logged w es)
    /\ osc_handler sent address args w' = (r, logged w' es).
Proof.
  intros Ht Hf Hc. rewrite !osc_handler_run. cbv zeta.
  rewrite <- Ht, <- Hf.
  destruct (hashable (key_of address args)); [|now eexists _, _].
  destruct (Dict.find (VALUE_MAP w) (key_of address args))
    as [[k [out_address out_args]]|].
  - rewrite !send_osc_run. cbn [osc_client logged]. rewrite <- Hc.
    destruct (osc_client w); rewrite !logged_logged; now eexists _, _.
  - destruct (FORWARD_UNMAPPED w).
    + rewrite !send_osc_run. cbn [osc_client logged]. rewrite <- Hc.
      destruct (osc_client w); rewrite !logged_logged; now eexists _, _.
    + rewrite !logged_logged. now eexists _, _.
Qed.

(** X7 (dispatch keeps no state).  Handling a message changes nothing in
    how a later message is handled: after any first message, however its
    [send_message] ended, the handler completes or raises on a second
    message, and produces the events, as it would have without the
    first. *)
Theorem X7_dispatch_is_stateless (w : world) (sent1 sent2 : outcome unit)
    (address1 : pyval) (args1 : list pyval) (address2 : pyval)
    (args2 : list pyval) :
  fst (osc_handler sent2 address2 args2
         (snd (osc_handler sent1 address1 args1 w))) =
    fst (osc_handler sent2 address2 args2 w)
  /\ new_events (snd (osc_handler sent1 address1 args1 w))
       (snd (osc_handler sent2 address2 args2
               (snd (osc_handler sent1 address1 args1 w)))) =
     new_events w (snd (osc_handler sent2 address2 args2 w)).
Proof.
  destruct (osc_handler_globals sent1 address1 args1 w) as (Ht & Hf & Hc).
  destruct (osc_handler_depends sent2 address2 args2
              (snd (osc_handler sent1 address1 args1 w)) w Ht Hf Hc)
    as (r & es & -> & ->).
  cbn [fst snd]. now rewrite !new_events_logged.
Qed.

Lemma number_hashable (v : pyval) (x : number) :
  py_number v = Some x -> hashable v = true.
Proof. destruct v; try discriminate; reflexivity. Qed.

Lemma all2_hashable (xs : list pyval) :
  Forall (fun x => forall y, same_key x y = true ->
                             hashable x = true /\ hashable y = true) xs ->
  forall ys, all2 same_key xs ys = true ->
             forallb hashable xs = true /\ forallb hashable ys = true.
Proof.
  induction 1 as [|x xs Hx _ IH]; intros [|y ys]; simpl; try discriminate.
  - now split.
  - intro H. apply andb_true_iff in H as [H1 H2].
    destruct (Hx _ H1) as [-> ->]. destruct (IH _ H2) as [-> ->].
    now split.
Qed.

(** Only hashable values are ever the same key. *)
Lemma same_key_hashable (a b : pyval) :
  same_key a b = true -> hashable a = true /\ hashable b = true.
Proof.
  revert b.
  induction a as [ | b0 | z | f | s | b0 | l IH | l IH | d IH ]
    using pyval_deep_ind; intros b H; try discriminate.
  - destruct b; try discriminate. now split.
  - rewrite (same_key_number (PBool b0) b _ eq_refl) in H.
    destruct (py_number b) eqn:E; [|discriminate].
    split; [reflexivity | eapply number_hashable; eassumption].
  - rewrite (same_key_number (PInt z) b _ eq_refl) in H.
    destruct (py_number b) eqn:E; [|discriminate].
    split; [reflexivity | eapply number_hashable; eassumption].
  - split; [reflexivity|].
    destruct f as [neg m e | neg | i].
    + rewrite (same_key_number (PFloat (FFinite neg m e)) b _ eq_refl) in H.
      destruct (py_number b) eqn:E; [|discriminate].
      eapply number_hashable; eassumption.
    + rewrite (same_key_number (PFloat (FInf neg)) b _ eq_refl) in H.
      destruct (py_number b) eqn:E; [|discriminate].
      eapply number_hashable; eassumption.
    + destruct b as [ | | |[]| | | | | ]; try discriminate. reflexivity.
  - destruct b; try discriminate. now split.
  - destruct b; try discriminate. now split.
  - destruct b; try discriminate. simpl in *. now apply all2_hashable.
Qed.

(** Probes that are the same key meet the same stored keys. *)
Lemma same_key_probe (k0 k k' : pyval) :
  same_key k k' = true -> same_key k0 k = same_key k0 k'.
Proof.
  intro H. destruct (same_key k0 k) eqn:E.
  - symmetry. eapply same_key_trans; eassumption.
  - destruct (same_key k0 k') eqn:E'; [|reflexivity].
    rewrite same_key_sym in H.
    now rewrite (same_key_trans _ _ _ E' H) in E.
Qed.

Lemma find_same_probe {V : Type} (d : Dict.dict V) (k k' : pyval) :
  same_key k k' = true -> Dict.find d k = Dict.find d k'.
Proof.
  intro H. induction d as [|[k0 v] r IH]; simpl; [reflexivity|].
  now rewrite (same_key_probe k0 k k' H), IH.
Qed.

(** X8 (first arguments that are the same key are interchangeable).  Two
    messages at one address whose first arguments Python takes for the
    same dictionary key ([1], [1.0] and [True]; [0], [0.0], [-0.0] and
    [False]; equal strings) are looked up alike, whatever follows the
    first argument: the membership test and the indexing of [VALUE_MAP]
    give the same result, and they are a mapped hit for the same rule. *)
Theorem X8_same_key_same_rule (w : world) (A v v' : pyval)
    (rest rest' : list pyval) :
  same_key v v' = true ->
  Dict.contains (VALUE_MAP w) (key_of A (v :: rest)) =
    Dict.contains (VALUE_MAP w) (key_of A (v' :: rest'))
  /\ Dict.getitem (VALUE_MAP w) (key_of A (v :: rest)) =
       Dict.getitem (VALUE_MAP w) (key_of A (v' :: rest'))
  /\ (forall r, mapped_hit w A (v :: rest) r <-> mapped_hit w A (v' :: rest') r).
Proof.
  intro H. destruct (same_key_hashable _ _ H) as [Hv Hv'].
  unfold mapped_hit, Dict.contains, Dict.getitem, key_of, first_arg.
  rewrite !hashable_pair, Hv, Hv'.
  destruct (hashable A) eqn:HA; cbn [andb].
  - assert (Hk : same_key (PTuple [A; v]) (PTuple [A; v']) = true).
    { rewrite same_key_pair, (same_key_refl A HA), H. reflexivity. }
    rewrite (find_same_probe (VALUE_MAP w) _ _ Hk).
    split; [reflexivity|]. split; [reflexivity|]. intro r. tauto.
  - split; [reflexivity|]. split; [reflexivity|].
    intro r. split; intros [Hraise _]; discriminate.
Qed.

Lemma X8_same_key_same_rule_witness :
  Dict.getitem (VALUE_MAP (running (config false [btn_rule])))
    (key_of (PStr "/btn/1") [PBool true; PStr "x"]) =
  Dict.getitem (VALUE_MAP (running (config false [btn_rule])))
    (key_of (PStr "/btn/1") [PFloat (float_of_Z 1)]).
Proof.
  exact (proj1 (proj2
    (X8_same_key_same_rule (running (config false [btn_rule]))
       (PStr "/btn/1") (PBool true) (PFloat (float_of_Z 1))
       [PStr "x"] [] eq_refl))).
Defined.

Lemma same_key_str_inv (x : pyval) (s : string) :
  same_key x (PStr s) = true -> x = PStr s.
Proof.
  destruct x as [ | | |[]| | | | | ]; try discriminate.
  simpl. intro H. apply String.eqb_eq in H. now subst.
Qed.

Lemma same_key_pair_inv (k x y : pyval) :
  same_key k (PTuple [x; y]) = true ->
  exists a0 v0,
    k = PTuple [a0; v0] /\ same_key a0 x = true /\ same_key v0 y = true.
Proof.
  destruct k as [ | | |[]| | | |l| ]; try discriminate.
  destruct l as [|a0 [|v0 [|z l]]]; simpl; intro H;
    rewrite ?andb_false_r, ?andb_true_r in H; try discriminate.
  apply andb_true_iff in H as [H1 H2]. now exists a0, v0.
Qed.

(** X9 (addresses match as whole strings).  A message whose address is
    the string [a] is a mapped hit only for a rule stored under the very
    string [a] and a value that is the message's first argument as a key:
    there is no prefix or pattern matching of addresses, and a rule whose
    [in_address] is not a string (a number or [true] in the file) is
    never hit by a message with a string address. *)
Theorem X9_address_matches_exactly (w : world) (a : string)
    (args : list pyval) (k : pyval) (out : rule_out) :
  mapped_hit w (PStr a) args (k, out) ->
  (exists v0, k = PTuple [PStr a; v0]
              /\ same_key v0 (first_arg args) = true)
  /\ (forall a0 v0, k = PTuple [a0; v0] -> a0 = PStr a).
Proof.
  intro H. apply mapped_hit_same_key in H. unfold key_of in H.
  apply same_key_pair_inv in H as (a0 & v0 & -> & Ha & Hv).
  apply same_key_str_inv in Ha. subst a0.
  split; [now exists v0|].
  intros a1 v1 H1. now injection H1 as <- _.
Qed.

Lemma X9_address_matches_exactly_witness :
  exists v0,
    PTuple [PStr "/btn/1"; PInt 1] = PTuple [PStr "/btn/1"; v0]
    /\ same_key v0 (first_arg [PBool true]) = true.
Proof.
  refine (proj1
    (X9_address_matches_exactly (running (config false [btn_rule]))
       "/btn/1" [PBool true] (PTuple [PStr "/btn/1"; PInt 1])
       (PStr "/light/1", PList [PInt 255]) _)).
  split; reflexivity.
Defined.

Lemma running_loaded (d : list (string * pyval)) (items : list pyval)
    (t : rule_table) :
  py_iter (member d "mappings" (PList [])) = Ret items ->
  for_mappings items [] = Ret t ->
  running (PDict d) =
    {| VALUE_MAP := t;
       FORWARD_UNMAPPED := truthy (member d "forward_unmapped" (PBool false));
       osc_client := Some localhost;
       trace := [] |}.
Proof.
  intros Hit Ht. unfold running, bind.
  rewrite load_config_object, Hit. cbv zeta. cbn [obind]. rewrite Ht.
  reflexivity.
Qed.

(** X10 (from the configuration file to the message sent).  For a
    configuration the construction gets through, loaded at startup, and a
    started server: the handler answers a message whose key can be
    hashed with the output of the last entry of the file that is kept and
    stored under the message's key, passing that entry's [out_address]
    and arguments to [send_message]; when the file has no such entry it
    passes the message on as it came if the file's flag is true, and only
    logs "Ignored" if it is false.  What is passed to [send_message] goes
    out when the call returns, and what the call raises leaves the
    handler. *)
Theorem X10_router_semantics (d : list (string * pyval))
    (items : list pyval) (sent : outcome unit) (address : pyval)
    (args : list pyval) :
  config_ok (PDict d) = true ->
  py_iter (member d "mappings" (PList [])) = Ret items ->
  hashable (key_of address args) = true ->
  osc_handler sent address args (running (PDict d)) =
    match last_match items (key_of address args) None with
    | Some (out_address, out_args) =>
        (sent,
         logged (running (PDict d))
           (LogGui (RecvLine address args)
            :: send_events sent localhost out_address (send_args out_args)))
    | None =>
        if truthy (member d "forward_unmapped" (PBool false))
        then (sent,
              logged (running (PDict d))
                (LogGui (RecvLine address args)
                 :: send_events sent localhost address args))
        else (Ret tt,
              logged (running (PDict d))
                [LogGui (RecvLine address args);
                 LogGui (Ignored (key_of address args))])
    end.
Proof.
  intros Hok Hit Hh. unfold config_ok in Hok. rewrite Hit in Hok.
  destruct (for_mappings_completes items [] Hok) as [t Ht].
  pose proof (running_loaded d items t Hit Ht) as Hw.
  assert (Hc : osc_client (running (PDict d)) = Some localhost)
    by now rewrite Hw.
  assert (Hv : VALUE_MAP (running (PDict d)) = t) by now rewrite Hw.
  assert (Hf : FORWARD_UNMAPPED (running (PDict d)) =
               truthy (member d "forward_unmapped" (PBool false)))
    by now rewrite Hw.
  pose proof (for_mappings_last_match items [] t (key_of address args) Ht)
    as Hl.
  cbn [Dict.find option_map] in Hl. rewrite <- Hl, <- Hf.
  rewrite <- Hv in *.
  destruct (Dict.find (VALUE_MAP (running (PDict d))) (key_of address args))
    as [[k [out_address out_args]]|] eqn:Hfind; cbn [option_map snd].
  - now apply osc_handler_found with (k := k).
  - destruct (FORWARD_UNMAPPED (running (PDict d))) eqn:Hfu.
    + exact (proj2 (proj1 (osc_handler_missed sent address args _ Hh Hfind)
                      Hfu) _ Hc).
    + exact (proj2 (osc_handler_missed sent address args _ Hh Hfind) Hfu).
Qed.

Lemma X10_router_semantics_witness :
  osc_handler (Ret tt) (PStr "/btn/1") [PInt 1; PInt 2]
    (running (config false
                [btn_rule;
                 rule (PStr "/btn/1") (PInt 1) (PStr "/light/2") (PInt 7)])) =
    (Ret tt,
     logged
       (running (config false
                   [btn_rule;
                    rule (PStr "/btn/1") (PInt 1) (PStr "/light/2")
                      (PInt 7)]))
       [LogGui (RecvLine (PStr "/btn/1") [PInt 1; PInt 2]);
        LogGui (SendLine (PStr "/light/2") [PInt 7]);
        SendMessage localhost (PStr "/light/2") [PInt 7]]).
Proof.
  exact (X10_router_semantics
           [("forward_unmapped", PBool false);
            ("mappings",
             PList [btn_rule;
                    rule (PStr "/btn/1") (PInt 1) (PStr "/light/2")
                      (PInt 7)])]
           [btn_rule;
            rule (PStr "/btn/1") (PInt 1) (PStr "/light/2") (PInt 7)]
           (Ret tt) (PStr "/btn/1") [PInt 1; PInt 2]
           eq_refl eq_refl eq_refl).
Defined.

(* ================================================================== *)
(** ** The window and the server *)
(* ================================================================== *)

Ltac app_cbv :=
  cbv beta iota zeta delta
    [App.on_start App.on_stop App.on_close App.stop_osc_server
     App.start_osc_server App._toggle_inputs App.showerror App.try_
     App.log_gui App.liftW App.bind App.get App.modify App.ret App.raise
     App.deliver App.lines_of App.settled
     App.with_globals App.with_osc_server_obj App.with_server_thread
     App.with_stdout App.with_log_text App.with_listen_port_var
     App.with_target_ip_var App.with_target_port_var App.with_running
     App.with_states App.with_status_var App.with_dialogs App.with_destroyed
     App.globals App.osc_server_obj App.server_thread App.app_instance
     App.stdout App.log_text App.host_ip App.listen_port_var
     App.target_ip_var App.target_port_var App.running App.states
     App.status_var App.dialogs App.destroyed
     App.entry_listen_port App.entry_target_ip App.entry_target_port
     App.start_button App.stop_button
     new_events log_gui set_osc_client emit
     VALUE_MAP FORWARD_UNMAPPED osc_client trace fst snd negb].

Ltac app_run :=
  app_cbv; rewrite ?skipn_length_app, ?skipn_all; app_cbv.

Ltac settled_goal := app_cbv; repeat split.

Ltac consistent_off :=
  unfold App.consistent; app_cbv;
  split; [reflexivity|]; split; [reflexivity|]; split; [reflexivity|];
  split; [intros _; split; reflexivity | intro; discriminate].

Section window.
Variable py_int : string -> option Z.
Variable py_strip : string -> string.

Lemma settled_refl (a : App.app) :
  App.app_instance a = true -> App.settled a a.
Proof. intro H. now repeat split. Qed.

Lemma settled_trans (a b c : App.app) :
  App.settled a b -> App.settled b c -> App.settled a c.
Proof.
  intros (_ & H1 & H2 & H3) (H4 & H5 & H6 & H7).
  repeat split; congruence.
Qed.

(** [stop_osc_server] with a window: the server and the thread are
    gone, and the window has one or two lines more. *)
Lemma stop_osc_server_run (a : App.app) :
  App.app_instance a = true ->
  App.stop_osc_server a =
    (Ret tt,
     App.with_log_text
       (App.log_text a
        ++ match App.osc_server_obj a with
           | Some _ => [App.StoppingServer; App.ServerStopped]
           | None => [App.ServerStopped]
           end)
       (App.with_server_thread false (App.with_osc_server_obj None a))).
Proof.
  intro Hi.
  destruct a as [w srv th inst out log hip lp tip tp run st sv dl ds].
  cbn in Hi. subst inst.
  destruct srv; app_cbv; now rewrite <- ?app_assoc.
Qed.

Lemma on_stop_run (a : App.app) :
  App.on_stop a =
    if App.running a
    then (Ret tt,
          App.with_status_var App.Stopped
            (App.with_states
               {| App.entry_listen_port := true;
                  App.entry_target_ip := true;
                  App.entry_target_port := true;
                  App.start_button := true;
                  App.stop_button := false |}
               (App.with_running false (snd (App.stop_osc_server a)))))
    else (Ret tt, a).
Proof.
  destruct a as [w srv th inst out log hip lp tip tp run st sv dl ds].
  destruct run, srv, inst; reflexivity.
Qed.

Lemma on_close_run (a : App.app) :
  App.on_close a =
    (Ret tt,
     App.with_destroyed true
       (if App.running a then snd (App.stop_osc_server a) else a)).
Proof.
  destruct a as [w srv th inst out log hip lp tip tp run st sv dl ds].
  destruct run, srv, inst; reflexivity.
Qed.

(** [start_osc_server] with a window, by what the system answers. *)
Lemma start_osc_server_run (listen_ip : string) (listen_port : Z)
    (target_ip : string) (target_port : Z) (env : App.start_env)
    (a : App.app) :
  App.app_instance a = true ->
  App.start_osc_server listen_ip listen_port target_ip target_port env a =
    match env with
    | App.ClientFails => (Raise OSError, a)
    | App.BindFails =>
        (Raise OSError,
         App.with_globals
           (snd (set_osc_client (SimpleUDPClient target_ip target_port)
                   (App.globals a))) a)
    | App.Starts =>
        (Ret tt,
         App.with_server_thread true
           (App.with_log_text
              (App.log_text a
               ++ [App.Core (ServerStarting listen_ip listen_port);
                   App.Core
                     (ForwardingTo (SimpleUDPClient target_ip target_port))])
              (App.with_osc_server_obj (Some (listen_ip, listen_port))
                 (App.with_globals
                    (snd (start_osc_server listen_ip listen_port
                            target_ip target_port true (App.globals a)))
                    a))))
    end.
Proof.
  intro Hi.
  destruct a as [[vm fu oc tr] srv th inst out log hip lp tip tp run st sv
                   dl ds].
  cbn in Hi. subst inst.
  destruct env.
  - reflexivity.
  - app_cbv. rewrite skipn_all. app_cbv. now rewrite app_nil_r.
  - unfold start_osc_server, bind, ret. app_run.
    now rewrite ?app_nil_r, <- ?app_assoc.
Qed.

(** [on_start] while nothing runs: a dialog when a port is no integer
    or the start fails, the switch to "running" when it succeeds. *)
Lemma on_start_run (env : App.start_env) (a : App.app) :
  App.app_instance a = true ->
  App.running a = false ->
  App.on_start py_int py_strip env a =
    (Ret tt,
     match py_int (py_strip (App.listen_port_var a)),
           py_int (py_strip (App.target_port_var a)) with
     | Some listen_port, Some target_port =>
         let a' :=
           snd (App.start_osc_server (App.host_ip a) listen_port
                  (py_strip (App.target_ip_var a)) target_port env a) in
         match env with
         | App.Starts =>
             App.with_log_text (App.log_text a' ++ [App.MapperStarted])
               (App.with_status_var
                  (App.RunningOn (App.host_ip a) listen_port)
                  (App.with_states
                     {| App.entry_listen_port := false;
                        App.entry_target_ip := false;
                        App.entry_target_port := false;
                        App.start_button := false;
                        App.stop_button := true |}
                     (App.with_running true a')))
         | _ => App.with_dialogs (App.dialogs a ++ [App.FailedToStart]) a'
         end
     | _, _ =>
         App.with_dialogs (App.dialogs a ++ [App.PortsMustBeIntegers]) a
     end).
Proof.
  intros Hi Hr.
  unfold App.on_start, App.bind at 1, App.get. cbv beta iota. rewrite Hr.
  destruct (py_int (py_strip (App.listen_port_var a))) as [listen_port|];
    [|reflexivity].
  destruct (py_int (py_strip (App.target_port_var a))) as [target_port|];
    [|reflexivity].
  unfold App.bind at 1, App.try_. cbv zeta.
  rewrite (start_osc_server_run (App.host_ip a) listen_port
             (py_strip (App.target_ip_var a)) target_port env a Hi).
  destruct a as [[vm fu oc tr] srv th inst out log hip lp tip tp run st sv
                   dl ds].
  cbn in Hi. subst inst.
  destruct env; app_cbv; reflexivity.
Qed.

Lemma on_start_running (env : App.start_env) (a : App.app) :
  App.running a = true ->
  App.on_start py_int py_strip env a = (Ret tt, a).
Proof.
  intro Hr. unfold App.on_start, App.bind at 1, App.get. cbv beta iota.
  now rewrite Hr.
Qed.

Lemma on_stop_keeps (a : App.app) :
  App.app_instance a = true ->
  App.consistent py_int py_strip a ->
  fst (App.on_stop a) = Ret tt
  /\ App.settled a (snd (App.on_stop a))
  /\ App.consistent py_int py_strip (snd (App.on_stop a))
  /\ App.destroyed (snd (App.on_stop a)) = App.destroyed a.
Proof.
  intros Hi Hc. rewrite on_stop_run.
  destruct (App.running a) eqn:Hr.
  - rewrite (stop_osc_server_run a Hi).
    destruct a as [[vm fu oc tr] srv th inst out log hip lp tip tp run st
                     sv dl ds].
    cbn in Hi, Hr. subst inst run.
    split; [reflexivity|]. split; [settled_goal|].
    split; [consistent_off | reflexivity].
  - split; [reflexivity|]. split; [now apply settled_refl|].
    split; [exact Hc | reflexivity].
Qed.

Lemma on_close_stops (a : App.app) :
  App.app_instance a = true ->
  App.consistent py_int py_strip a ->
  fst (App.on_close a) = Ret tt
  /\ App.settled a (snd (App.on_close a))
  /\ App.destroyed (snd (App.on_close a)) = true
  /\ App.osc_server_obj (snd (App.on_close a)) = None
  /\ App.server_thread (snd (App.on_close a)) = false.
Proof.
  intros Hi Hc. rewrite on_close_run.
  destruct (App.running a) eqn:Hr.
  - rewrite (stop_osc_server_run a Hi).
    destruct a as [[vm fu oc tr] srv th inst out log hip lp tip tp run st
                     sv dl ds].
    cbn in Hi, Hr. subst inst run.
    split; [reflexivity|]. split; [settled_goal|]. repeat split.
  - destruct Hc as (_ & Hth & _ & Hoff & _).
    destruct (Hoff Hr) as [Hsrv _]. rewrite Hr in Hth.
    destruct a as [[vm fu oc tr] srv th inst out log hip lp tip tp run st
                     sv dl ds].
    cbn in Hi, Hr, Hth, Hsrv. subst inst run th srv.
    split; [reflexivity|]. split; [settled_goal|]. repeat split.
Qed.

Lemma on_start_keeps (env : App.start_env) (a : App.app) :
  App.app_instance a = true ->
  App.consistent py_int py_strip a ->
  fst (App.on_start py_int py_strip env a) = Ret tt
  /\ App.settled a (snd (App.on_start py_int py_strip env a))
  /\ App.consistent py_int py_strip (snd (App.on_start py_int py_strip env a))
  /\ App.destroyed (snd (App.on_start py_int py_strip env a)) =
       App.destroyed a.
Proof.
  intros Hi Hc.
  destruct (App.running a) eqn:Hr.
  - rewrite (on_start_running env a Hr).
    split; [reflexivity|]. split; [now apply settled_refl|].
    split; [exact Hc | reflexivity].
  - rewrite (on_start_run env a Hi Hr).
    pose proof Hc as (_ & Hth & Hst & Hoff & _).
    destruct (Hoff Hr) as [Hsrv Hsv]. rewrite Hr in Hth, Hst.
    destruct (py_int (py_strip (App.listen_port_var a)))
      as [listen_port|] eqn:El;
      [destruct (py_int (py_strip (App.target_port_var a)))
         as [target_port|] eqn:Et|].
    + cbv zeta.
      rewrite (start_osc_server_run (App.host_ip a) listen_port
                 (py_strip (App.target_ip_var a)) target_port env a Hi).
      destruct a as [[vm fu oc tr] srv th inst out log hip lp tip tp run
                       st sv dl ds].
      cbn in Hi, Hr, Hth, Hst, Hsrv, Hsv, El, Et. subst inst run th st srv sv.
      destruct env.
      * split; [reflexivity|]. split; [settled_goal|].
        split; [consistent_off | reflexivity].
      * split; [reflexivity|]. split; [settled_goal|].
        split; [consistent_off | reflexivity].
      * split; [reflexivity|]. split; [settled_goal|].
        split; [|reflexivity].
        unfold App.consistent, start_osc_server, bind, ret. app_cbv.
        split; [reflexivity|]. split; [reflexivity|].
        split; [reflexivity|]. split; [intro; discriminate|].
        intros _. exists listen_port, target_port.
        repeat split; assumption.
    + destruct a as [[vm fu oc tr] srv th inst out log hip lp tip tp run
                       st sv dl ds].
      cbn in Hi, Hr, Hth, Hst, Hsrv, Hsv. subst inst run th st srv sv.
      split; [reflexivity|]. split; [settled_goal|].
      split; [consistent_off | reflexivity].
    + destruct a as [[vm fu oc tr] srv th inst out log hip lp tip tp run
                       st sv dl ds].
      cbn in Hi, Hr, Hth, Hst, Hsrv, Hsv. subst inst run th st srv sv.
      split; [reflexivity|]. split; [settled_goal|].
      split; [consistent_off | reflexivity].
Qed.

Lemma callback_keeps (ev : App.gui_event) (a : App.app) :
  App.app_instance a = true ->
  App.destroyed a = false ->
  App.consistent py_int py_strip a ->
  fst (App.callback py_int py_strip ev a) = Ret tt
  /\ App.settled a (snd (App.callback py_int py_strip ev a))
  /\ App.rested py_int py_strip (snd (App.callback py_int py_strip ev a)).
Proof.
  intros Hi Hd Hc. unfold App.rested.
  destruct ev as [env| | |text|text|text]; cbn [App.callback].
  - destruct (on_start_keeps env a Hi Hc) as (H1 & H2 & H3 & H4).
    split; [exact H1|]. split; [exact H2|]. rewrite H4, Hd.
    split; [intros _; exact H3 | discriminate].
  - destruct (on_stop_keeps a Hi Hc) as (H1 & H2 & H3 & H4).
    split; [exact H1|]. split; [exact H2|]. rewrite H4, Hd.
    split; [intros _; exact H3 | discriminate].
  - destruct (on_close_stops a Hi Hc) as (H1 & H2 & H3 & H4 & H5).
    split; [exact H1|]. split; [exact H2|]. rewrite H3.
    split; [discriminate | intros _; now split].
  - destruct a as [[vm fu oc tr] srv th inst out log hip lp tip tp run st
                     sv dl ds].
    cbn in Hi, Hd. subst inst ds.
    pose proof Hc as (_ & Hth & Hst & Hoff & Hon).
    cbn in Hth, Hst, Hoff, Hon. subst st.
    destruct run; app_cbv;
      (split; [reflexivity|]); (split; [settled_goal|]);
      (split; [|intro; discriminate]); intros _.
    + exact Hc.
    + destruct (Hoff eq_refl) as [-> ->]. subst. consistent_off.
  - destruct a as [[vm fu oc tr] srv th inst out log hip lp tip tp run st
                     sv dl ds].
    cbn in Hi, Hd. subst inst ds.
    pose proof Hc as (_ & Hth & Hst & Hoff & Hon).
    cbn in Hth, Hst, Hoff, Hon. subst st.
    destruct run; app_cbv;
      (split; [reflexivity|]); (split; [settled_goal|]);
      (split; [|intro; discriminate]); intros _.
    + exact Hc.
    + destruct (Hoff eq_refl) as [-> ->]. subst. consistent_off.
  - destruct a as [[vm fu oc tr] srv th inst out log hip lp tip tp run st
                     sv dl ds].
    cbn in Hi, Hd. subst inst ds.
    pose proof Hc as (_ & Hth & Hst & Hoff & Hon).
    cbn in Hth, Hst, Hoff, Hon. subst st.
    destruct run; app_cbv;
      (split; [reflexivity|]); (split; [settled_goal|]);
      (split; [|intro; discriminate]); intros _.
    + exact Hc.
    + destruct (Hoff eq_refl) as [-> ->]. subst. consistent_off.
Qed.

Lemma mainloop_cons (ev : App.gui_event) (evs : list App.gui_event)
    (a : App.app) :
  App.mainloop py_int py_strip (ev :: evs) a =
    if App.destroyed a then (Ret tt, a)
    else App.mainloop py_int py_strip evs
           (snd (App.callback py_int py_strip ev a)).
Proof.
  cbn [App.mainloop]. unfold App.bind, App.get, App.try_. cbv beta iota.
  destruct (App.destroyed a); reflexivity.
Qed.

Lemma mainloop_keeps (evs : list App.gui_event) (a : App.app) :
  App.app_instance a = true ->
  App.rested py_int py_strip a ->
  fst (App.mainloop py_int py_strip evs a) = Ret tt
  /\ App.settled a (snd (App.mainloop py_int py_strip evs a))
  /\ App.rested py_int py_strip (snd (App.mainloop py_int py_strip evs a)).
Proof.
  revert a. induction evs as [|ev evs IH]; intros a Hi Hr.
  - split; [reflexivity|]. split; [now apply settled_refl | exact Hr].
  - rewrite mainloop_cons.
    destruct (App.destroyed a) eqn:Hd.
    + split; [reflexivity|]. split; [now apply settled_refl | exact Hr].
    + destruct Hr as [Hc _].
      destruct (callback_keeps ev a Hi Hd (Hc Hd)) as (_ & Hs & H3).
      destruct (IH (snd (App.callback py_int py_strip ev a)))
        as (I1 & I2 & I3); [apply Hs | exact H3 |].
      split; [exact I1|]. split; [|exact I3].
      eapply settled_trans; eassumption.
Qed.

Lemma main_run (src : config_source) (route : option string)
    (icon_ok : bool) (evs : list App.gui_event) :
  fst (load_config src initial_world) = Ret tt ->
  App.main py_int py_strip src route icon_ok evs App.boot =
    App.mainloop py_int py_strip evs (App.opened src route icon_ok).
Proof.
  intro H. unfold App.main, App.opened, App.bind, App.liftW, App.boot.
  cbn [App.globals]. rewrite H. reflexivity.
Qed.

(** The process at the start of the main loop. *)
Lemma opened_state (src : config_source) (route : option string)
    (icon_ok : bool) :
  fst (load_config src initial_world) = Ret tt ->
  App.app_instance (App.opened src route icon_ok) = true
  /\ App.destroyed (App.opened src route icon_ok) = false
  /\ App.consistent py_int py_strip (App.opened src route icon_ok)
  /\ App.globals (App.opened src route icon_ok) =
       snd (load_config src initial_world)
  /\ App.log_text (App.opened src route icon_ok) = []
  /\ App.stdout (App.opened src route icon_ok) =
       App.lines_of
         (new_events initial_world (snd (load_config src initial_world)))
       ++ (if icon_ok then [] else [App.NoWindowIcon]).
Proof.
  intro H. unfold App.opened, App.bind, App.liftW, App.boot.
  cbn [App.globals]. rewrite H.
  unfold App.consistent, App.OSCMapperApp, App.modify, App.deliver.
  cbn. repeat split; try discriminate.
Qed.

Lemma load_config_completes (data : pyval) (w : world) :
  config_ok data = true -> fst (load_config (Decoded data) w) = Ret tt.
Proof.
  intro H. destruct data as [ | | | | | | | |d]; try discriminate.
  unfold config_ok in H. rewrite load_config_object. cbv zeta.
  destruct (py_iter (member d "mappings" (PList []))) as [items|x];
    [|discriminate].
  destruct (for_mappings_completes items [] H) as [t Ht].
  cbn [obind]. now rewrite Ht.
Qed.

Lemma failed_load_state (data : pyval) (w : world) (x : exn) :
  fst (load_config (Decoded data) w) = Raise x ->
  VALUE_MAP (snd (load_config (Decoded data) w)) = VALUE_MAP w
  /\ new_events w (snd (load_config (Decoded data) w)) =
       [LogGui ConfigLoaded].
Proof.
  intro H. destruct data as [ | | | | | | | |d];
    try (split; [reflexivity | apply new_events_logged]).
  rewrite load_config_object in *. cbv zeta in *.
  destruct (let! items := py_iter (member d "mappings" (PList [])) in
            for_mappings items []) as [t|y]; [discriminate|].
  split; [reflexivity | apply skipn_length_app].
Qed.

(** X11 (a configuration of the wrong shape stops the program).  When
    [config.json] decodes to a value the construction does not get
    through (see C6), the exception leaves [load_config] and with it
    [main]: no window is created, no rule is installed, and the only
    trace is the line "Loaded config from ..." on the standard output;
    whatever the user would have done is never looked at. *)
Theorem X11_bad_shape_aborts_startup (data : pyval) (route : option string)
    (icon_ok : bool) (evs : list App.gui_event) :
  config_ok data = false ->
  (exists x,
     fst (App.main py_int py_strip (Decoded data) route icon_ok evs App.boot)
     = Raise x)
  /\ App.app_instance
       (snd (App.main py_int py_strip (Decoded data) route icon_ok evs
               App.boot)) = false
  /\ App.stdout
       (snd (App.main py_int py_strip (Decoded data) route icon_ok evs
               App.boot)) = [App.Core ConfigLoaded]
  /\ App.log_text
       (snd (App.main py_int py_strip (Decoded data) route icon_ok evs
               App.boot)) = []
  /\ VALUE_MAP
       (App.globals
          (snd (App.main py_int py_strip (Decoded data) route icon_ok evs
                  App.boot))) = []
  /\ App.osc_server_obj
       (snd (App.main py_int py_strip (Decoded data) route icon_ok evs
               App.boot)) = None.
Proof.
  intro H. destruct (load_config_raises data initial_world H) as [x Hx].
  destruct (failed_load_state data initial_world x Hx) as [Ht He].
  unfold App.main, App.bind, App.liftW.
  change (App.globals App.boot) with initial_world. rewrite Hx, He.
  destruct (snd (load_config (Decoded data) initial_world))
    as [vm fu oc tr].
  cbn in Ht. subst vm. app_cbv.
  split; [now exists x | repeat split].
Qed.

(** X12 (what is printed and what the window shows).  When [load_config]
    completes, everything it logs is printed on the standard output,
    never shown in the debug window, because the window is created after
    it: the window opens with an empty log, and whatever the user does
    afterwards, the standard output holds the lines of [load_config],
    followed by the icon warning if the icon could not be set, and
    nothing else. *)
Theorem X12_startup_log_is_printed (src : config_source)
    (route : option string) (icon_ok : bool) (evs : list App.gui_event) :
  fst (load_config src initial_world) = Ret tt ->
  App.log_text (App.opened src route icon_ok) = []
  /\ App.stdout
       (snd (App.main py_int py_strip src route icon_ok evs App.boot)) =
     App.lines_of
       (new_events initial_world (snd (load_config src initial_world)))
     ++ (if icon_ok then [] else [App.NoWindowIcon]).
Proof.
  intro H. rewrite (main_run src route icon_ok evs H).
  destruct (opened_state src route icon_ok H)
    as (Hi & Hd & Hc & Hg & Hl & Ho).
  split; [exact Hl|].
  destruct (mainloop_keeps evs (App.opened src route icon_ok) Hi)
    as (_ & (_ & Hs & _) & _).
  - split; [intros _; exact Hc | rewrite Hd; discriminate].
  - now rewrite Hs.
Qed.

(** X13 (the window and the server agree).  When [load_config]
    completes, then whatever the user does (starts that succeed or fail,
    stops, edits of the entries, closing the window), [main] returns
    without an exception and, as long as the window is there: the server and its thread exist
    exactly while [running] is set; the entries and the Start button are
    disabled and the Stop button enabled exactly then; the status line
    reads "Stopped" when nothing runs; and while the server runs, it
    listens on the port the entry shows, the status line names that
    port, and the client sends to the address and port the entries show.
    Once the window is destroyed, the server is stopped. *)
Theorem X13_window_and_server_agree (src : config_source)
    (route : option string) (icon_ok : bool) (evs : list App.gui_event) :
  fst (load_config src initial_world) = Ret tt ->
  fst (App.main py_int py_strip src route icon_ok evs App.boot) = Ret tt
  /\ App.app_instance
       (snd (App.main py_int py_strip src route icon_ok evs App.boot)) = true
  /\ App.rested py_int py_strip
       (snd (App.main py_int py_strip src route icon_ok evs App.boot)).
Proof.
  intro H. rewrite (main_run src route icon_ok evs H).
  destruct (opened_state src route icon_ok H)
    as (Hi & Hd & Hc & Hg & Hl & Ho).
  destruct (mainloop_keeps evs (App.opened src route icon_ok) Hi)
    as (H1 & (H2 & _) & H3).
  - split; [intros _; exact Hc | rewrite Hd; discriminate].
  - split; [exact H1|]. split; [exact H2 | exact H3].
Qed.

(** X14 (the configuration is read once).  Whatever the user does in the
    window, the table and the flag stay what [load_config] made them at
    startup: starting and stopping the server never reads the file
    again. *)
Theorem X14_configuration_is_read_once (src : config_source)
    (route : option string) (icon_ok : bool) (evs : list App.gui_event) :
  fst (load_config src initial_world) = Ret tt ->
  VALUE_MAP
    (App.globals
       (snd (App.main py_int py_strip src route icon_ok evs App.boot))) =
    VALUE_MAP (snd (load_config src initial_world))
  /\ FORWARD_UNMAPPED
       (App.globals
          (snd (App.main py_int py_strip src route icon_ok evs App.boot))) =
     FORWARD_UNMAPPED (snd (load_config src initial_world)).
Proof.
  intro H. rewrite (main_run src route icon_ok evs H).
  destruct (opened_state src route icon_ok H)
    as (Hi & Hd & Hc & Hg & Hl & Ho).
  destruct (mainloop_keeps evs (App.opened src route icon_ok) Hi)
    as (_ & (_ & _ & Ht & Hf) & _).
  - split; [intros _; exact Hc | rewrite Hd; discriminate].
  - now rewrite Ht, Hf, Hg.
Qed.

(** X15 (a start that fails).  While nothing runs, a click on Start ends
    without raising, and: when one of the port entries is not an
    integer, an error dialog is shown and nothing else changes; when the
    client cannot be created, the "Failed to start" dialog is shown and
    nothing else changes; when the listening socket cannot be bound, the
    same dialog is shown, nothing runs, but the client of the globals has
    already been replaced by one for the new target. *)
Theorem X15_failed_start (env : App.start_env) (a : App.app) :
  App.app_instance a = true ->
  App.running a = false ->
  (py_int (py_strip (App.listen_port_var a)) = None
   \/ py_int (py_strip (App.target_port_var a)) = None ->
   App.on_start py_int py_strip env a =
     (Ret tt,
      App.with_dialogs (App.dialogs a ++ [App.PortsMustBeIntegers]) a))
  /\ (forall listen_port target_port,
        py_int (py_strip (App.listen_port_var a)) = Some listen_port ->
        py_int (py_strip (App.target_port_var a)) = Some target_port ->
        (env = App.ClientFails ->
         App.on_start py_int py_strip env a =
           (Ret tt,
            App.with_dialogs (App.dialogs a ++ [App.FailedToStart]) a))
        /\ (env = App.BindFails ->
            App.on_start py_int py_strip env a =
              (Ret tt,
               App.with_dialogs (App.dialogs a ++ [App.FailedToStart])
                 (App.with_globals
                    (snd (set_osc_client
                            (SimpleUDPClient
                               (py_strip (App.target_ip_var a)) target_port)
                            (App.globals a)))
                    a)))).
Proof.
  intros Hi Hr. rewrite (on_start_run env a Hi Hr). split.
  - intros [-> | H]; [reflexivity|].
    rewrite H. now destruct (py_int (py_strip (App.listen_port_var a))).
  - intros listen_port target_port -> ->. cbv zeta.
    rewrite (start_osc_server_run (App.host_ip a) listen_port
               (py_strip (App.target_ip_var a)) target_port env a Hi).
    split; intros ->; reflexivity.
Qed.

(** X16 (Start, then Stop).  From a stopped window whose port entries
    hold integers, a start that succeeds followed by a stop brings the
    server, the thread, the buttons, the entries and the status line back
    to where they were; what is left is that the globals hold the client
    for the target of the entries, and five more lines in the debug
    window: the two of the start, "OSC Mapper started.", "Stopping OSC
    server..." and "OSC server stopped.". *)
Theorem X16_start_then_stop (a : App.app) (listen_port target_port : Z) :
  App.app_instance a = true ->
  App.running a = false ->
  App.consistent py_int py_strip a ->
  py_int (py_strip (App.listen_port_var a)) = Some listen_port ->
  py_int (py_strip (App.target_port_var a)) = Some target_port ->
  App.running (snd (App.on_start py_int py_strip App.Starts a)) = true
  /\ snd (App.on_stop (snd (App.on_start py_int py_strip App.Starts a))) =
       App.with_log_text
         (App.log_text a
          ++ [App.Core (ServerStarting (App.host_ip a) listen_port);
              App.Core
                (ForwardingTo
                   (SimpleUDPClient (py_strip (App.target_ip_var a))
                      target_port));
              App.MapperStarted; App.StoppingServer; App.ServerStopped])
         (App.with_globals
            (snd (start_osc_server (App.host_ip a) listen_port
                    (py_strip (App.target_ip_var a)) target_port true
                    (App.globals a)))
            a).
Proof.
  intros Hi Hr Hc El Et.
  destruct Hc as (_ & Hth & Hst & Hoff & _).
  destruct (Hoff Hr) as [Hsrv Hsv]. rewrite Hr in Hth, Hst.
  rewrite (on_start_run App.Starts a Hi Hr), El, Et. cbv zeta.
  rewrite (start_osc_server_run (App.host_ip a) listen_port
             (py_strip (App.target_ip_var a)) target_port App.Starts a Hi).
  rewrite on_stop_run.
  destruct a as [[vm fu oc tr] srv th inst out log hip lp tip tp run st sv
                   dl ds].
  cbn in Hi, Hr, Hth, Hst, Hsrv, Hsv, El, Et. subst inst run th st srv sv.
  split; [reflexivity|].
  unfold App.stop_osc_server, start_osc_server, bind, ret. app_cbv.
  now rewrite <- !app_assoc.
Qed.
End window.

Lemma X11_bad_shape_aborts_startup_witness :
  App.stdout
    (snd (App.main decimal strip_spaces (Decoded (PList [])) None true
            [App.ClickStart App.Starts] App.boot)) = [App.Core ConfigLoaded]
  /\ App.log_text
       (snd (App.main decimal strip_spaces (Decoded (PList [])) None true
               [App.ClickStart App.Starts] App.boot)) = [].
Proof.
  destruct (X11_bad_shape_aborts_startup decimal strip_spaces (PList [])
              None true [App.ClickStart App.Starts] eq_refl)
    as (_ & _ & H1 & H2 & _).
  split; [exact H1 | exact H2].
Defined.

Lemma X12_startup_log_is_printed_witness :
  App.stdout
    (snd (App.main decimal strip_spaces (Decoded (config true [btn_rule]))
            None false
            [App.ClickStart App.Starts; App.ClickStop] App.boot)) =
    [App.Core ConfigLoaded; App.Core (LoadedMappings 1 true);
     App.NoWindowIcon].
Proof.
  exact (proj2
    (X12_startup_log_is_printed decimal strip_spaces
       (Decoded (config true [btn_rule])) None false
       [App.ClickStart App.Starts; App.ClickStop] eq_refl)).
Defined.

Lemma X13_window_and_server_agree_witness :
  App.rested decimal strip_spaces
    (snd (App.main decimal strip_spaces Unreadable (Some "192.168.0.2") true
            [App.ClickStart App.BindFails; App.TypeListenPort " 7001 ";
             App.ClickStart App.Starts; App.TypeTargetPort "x";
             App.ClickStart App.Starts]
            App.boot)).
Proof.
  exact (proj2 (proj2
    (X13_window_and_server_agree decimal strip_spaces Unreadable
       (Some "192.168.0.2") true
       [App.ClickStart App.BindFails; App.TypeListenPort " 7001 ";
        App.ClickStart App.Starts; App.TypeTargetPort "x";
        App.ClickStart App.Starts]
       eq_refl))).
Defined.

Lemma X14_configuration_is_read_once_witness :
  VALUE_MAP
    (App.globals
       (snd (App.main decimal strip_spaces
               (Decoded (config false [btn_rule])) None true
               [App.ClickStart App.Starts; App.ClickStop;
                App.ClickStart App.Starts]
               App.boot))) =
    [(PTuple [PStr "/btn/1"; PInt 1], (PStr "/light/1", PList [PInt 255]))].
Proof.
  exact (proj1
    (X14_configuration_is_read_once decimal strip_spaces
       (Decoded (config false [btn_rule])) None true
       [App.ClickStart App.Starts; App.ClickStop; App.ClickStart App.Starts]
       eq_refl)).
Defined.

Lemma X15_failed_start_witness :
  App.on_start decimal strip_spaces App.BindFails
    (App.opened Unreadable None true) =
    (Ret tt,
     App.with_dialogs [App.FailedToStart]
       (App.with_globals
          (snd (set_osc_client (SimpleUDPClient "127.0.0.1" 7000)
                  (App.globals (App.opened Unreadable None true))))
          (App.opened Unreadable None true))).
Proof.
  exact (proj2
    (proj2
       (X15_failed_start decimal strip_spaces App.BindFails
          (App.opened Unreadable None true) eq_refl eq_refl)
       7000 7000 eq_refl eq_refl)
    eq_refl).
Defined.

Lemma X16_start_then_stop_witness :
  App.running
    (snd (App.on_start decimal strip_spaces App.Starts
            (App.opened Unreadable None true))) = true
  /\ App.log_text
       (snd (App.on_stop
               (snd (App.on_start decimal strip_spaces App.Starts
                       (App.opened Unreadable None true))))) =
     [App.Core (ServerStarting "127.0.0.1" 7000);
      App.Core (ForwardingTo (SimpleUDPClient "127.0.0.1" 7000));
      App.MapperStarted; App.StoppingServer; App.ServerStopped].
Proof.
  destruct (X16_start_then_stop decimal strip_spaces
              (App.opened Unreadable None true) 7000 7000
              eq_refl eq_refl
              (proj1 (proj2 (proj2
                 (opened_state decimal strip_spaces Unreadable None true
                    eq_refl))))
              eq_refl eq_refl) as [H1 H2].
  split; [exact H1|]. rewrite H2. reflexivity.
Defined.
